(** * slack-dm-sender: the notification dispatcher and the liveness endpoint

    A shallow embedding of [api/notify_late.py] and [api/ping.py].

    Python values that reach the handlers come from [json.loads], so they
    are modelled by an inductive type of JSON-shaped Python objects.  The
    handler can raise (attribute, type and key errors are not caught in
    the per-user loop), it calls the upstream HTTP API and it sleeps; these
    effects are modelled by a small state-and-exception monad over a trace
    of events. *)

From Stdlib Require Import List NArith ZArith QArith Bool String Ascii Lia.
Import ListNotations.
Set Warnings "-register-all".
Local Open Scope N_scope.
Local Open Scope list_scope.

(** ** Python strings

    A Python [str] is a sequence of Unicode code points.  Literals of the
    source that are plain ASCII are written with [py]; the two literals
    that are not spell their code points out. *)

Definition codepoint := N.
Definition pystr := list codepoint.

Definition py (s : string) : pystr :=
  map N_of_ascii (list_ascii_of_string s).

Definition pystr_eqb (a b : pystr) : bool :=
  if list_eq_dec N.eq_dec a b then true else false.

(** ** Python objects decoded from JSON *)

(** The mathematical value of a [float]; only its truth value matters
    here ([bool(x)] is [x != 0.0], so NaN and the infinities are true). *)
Inductive pyfloat :=
| Finite (q : Q)
| Infinity (negative : bool)
| NaN.

(** A [dict] is kept as the list of its items; [dict_lookup] returns the
    first item stored under a key. *)
Inductive pyval :=
| PNone
| PBool (b : bool)
| PInt (n : Z)
| PFloat (x : pyfloat)
| PStr (s : pystr)
| PList (l : list pyval)
| PDict (d : list (pystr * pyval)).

Definition items := list (pystr * pyval).

Fixpoint dict_lookup (key : pystr) (d : items) : option pyval :=
  match d with
  | [] => None
  | (k, v) :: d' => if pystr_eqb k key then Some v else dict_lookup key d'
  end.

(** [bool(v)]: Python's truth value testing. *)
Definition truthy (v : pyval) : bool :=
  match v with
  | PNone => false
  | PBool b => b
  | PInt n => negb (n =? 0)%Z
  | PFloat (Finite q) => negb (Qnum q =? 0)%Z
  | PFloat _ => true
  | PStr s => match s with [] => false | _ => true end
  | PList l => match l with [] => false | _ => true end
  | PDict d => match d with [] => false | _ => true end
  end.

(** [a or b] *)
Definition py_or (a b : pyval) : pyval := if truthy a then a else b.

Definition isinstance_str (v : pyval) : bool :=
  match v with PStr _ => true | _ => false end.

(** ** Exceptions *)

Inductive exn :=
| AttributeError
| TypeError
| KeyError (key : pystr).

Inductive result (A : Type) :=
| Ok (a : A)
| Raise (e : exn).
Arguments Ok {A} a.
Arguments Raise {A} e.

(** [d.get(key, default)] on the items of a [dict] *)
Definition dict_get (d : items) (key : pystr) (default : pyval) : pyval :=
  match dict_lookup key d with
  | Some x => x
  | None => default
  end.

(** [v.get(key, default)]: only a [dict] has a [get] method among the
    objects [json.loads] produces. *)
Definition get (v : pyval) (key : pystr) (default : pyval) : result pyval :=
  match v with
  | PDict d => Ok (dict_get d key default)
  | _ => Raise AttributeError
  end.

(** [v[key]] for a string [key]: a missing key of a [dict] is a
    [KeyError]; a string or a list refuses a string index and the other
    objects are not subscriptable, a [TypeError] either way. *)
Definition getitem (v : pyval) (key : pystr) : result pyval :=
  match v with
  | PDict d => match dict_lookup key d with
               | Some x => Ok x
               | None => Raise (KeyError key)
               end
  | _ => Raise TypeError
  end.

(** ** The fragment of [re] the handler uses

    [re.match(r"^U[A-Z0-9]+$", slack_id, re.I)].  The pattern is kept as
    the parsed form [sre_parse] gives it and run by a backtracking
    matcher.  Without [re.M], [^] matches at the start of the string only
    and [$] at its end or just before a newline that ends it. *)
Module Re.

Inductive atom :=
| LITERAL (c : codepoint)
| IN (ranges : list (codepoint * codepoint)).

Inductive op :=
| AT_BEGINNING
| AT_END
| ONE (a : atom)
| MAX_REPEAT1 (a : atom).     (* a+ *)

Definition pattern := list op.

(** [_sre.unicode_tolower], on the code points whose lower case is an
    ASCII letter: the letters A-Z, U+0130 (capital I with dot above,
    lower case [i]) and U+212A (Kelvin sign, lower case [k]).  Every
    other code point is left alone, which is exact for a pattern whose
    literals and ranges are ASCII. *)
Definition unicode_tolower (c : codepoint) : codepoint :=
  if (65 <=? c) && (c <=? 90) then c + 32
  else if c =? 304 then 105
  else if c =? 8490 then 107
  else c.

(** [sre_compile._equivalences], the rows for ASCII letters: dotless i
    (U+0131) goes with [i], long s (U+017F) with [s]. *)
Definition fixes (lo : codepoint) : list codepoint :=
  if lo =? 105 then [305]
  else if lo =? 115 then [383]
  else [].

Fixpoint codepoints_from (lo : codepoint) (n : nat) : list codepoint :=
  match n with
  | O => []
  | S k => lo :: codepoints_from (N.succ lo) k
  end.

(** [range(lo, hi + 1)] *)
Definition range (lo hi : codepoint) : list codepoint :=
  codepoints_from lo (N.to_nat (hi + 1 - lo)).

(** The set of code points a compiled atom accepts; with [re.I] the
    members are lowered and their equivalents added, and the subject's
    character is lowered before the lookup. *)
Definition charset (ignorecase : bool) (a : atom) : list codepoint :=
  let members :=
    match a with
    | LITERAL c => [c]
    | IN ranges => flat_map (fun r => range (fst r) (snd r)) ranges
    end in
  if ignorecase
  then flat_map (fun i => unicode_tolower i :: fixes (unicode_tolower i)) members
  else members.

Definition atom_matches (ignorecase : bool) (a : atom) (ch : codepoint) : bool :=
  let ch' := if ignorecase then unicode_tolower ch else ch in
  existsb (N.eqb ch') (charset ignorecase a).

Definition at_end (s : pystr) : bool :=
  match s with
  | [] => true
  | [10] => true
  | _ => false
  end.

(** A greedy repeat: take one more accepted character and go on, or, when
    that fails, let the rest of the pattern [k] run from here. *)
Fixpoint repeat_max (accept : codepoint -> bool) (k : pystr -> bool) (s : pystr) : bool :=
  match s with
  | ch :: s' => (accept ch && repeat_max accept k s') || k s
  | [] => k s
  end.

(** [exec p bos s]: can [p] match a prefix of [s], where [bos] says
    whether [s] starts at position 0 of the subject. *)
Fixpoint exec (ignorecase : bool) (p : pattern) (bos : bool) (s : pystr) : bool :=
  match p with
  | [] => true
  | AT_BEGINNING :: p' => bos && exec ignorecase p' bos s
  | AT_END :: p' => at_end s && exec ignorecase p' bos s
  | ONE a :: p' =>
      match s with
      | ch :: s' => atom_matches ignorecase a ch && exec ignorecase p' false s'
      | [] => false
      end
  | MAX_REPEAT1 a :: p' =>
      match s with
      | ch :: s' =>
          atom_matches ignorecase a ch
          && repeat_max (atom_matches ignorecase a) (exec ignorecase p' false) s'
      | [] => false
      end
  end.

(** [re.match(pattern, string, flags)]: a [Match] object (true) or
    [None] (false); a subject that is not a [str] is a [TypeError]. *)
Definition re_match (p : pattern) (subject : pyval) (ignorecase : bool) : result bool :=
  match subject with
  | PStr s => Ok (exec ignorecase p true s)
  | _ => Raise TypeError
  end.

End Re.

(** [r"^U[A-Z0-9]+$"] *)
Definition slack_id_pattern : Re.pattern :=
  [Re.AT_BEGINNING; Re.ONE (Re.LITERAL 85);
   Re.MAX_REPEAT1 (Re.IN [(65, 90); (48, 57)]); Re.AT_END].

(** ** The language of the slack id pattern, in words

    A character of the body of an id: an ASCII letter or digit, or one of
    the four letters that [re.I] folds onto ASCII letters (U+0130,
    U+0131, U+017F, U+212A). *)
Definition id_char (c : codepoint) : bool :=
  ((65 <=? c) && (c <=? 90)) || ((97 <=? c) && (c <=? 122))
  || ((48 <=? c) && (c <=? 57))
  || (c =? 304) || (c =? 305) || (c =? 383) || (c =? 8490).

(** [U] or [u], then one or more [id_char], then nothing or one final
    newline. *)
Definition slack_id_shaped (s : pystr) : Prop :=
  exists c body nl,
    s = c :: body ++ nl
    /\ (c = 85 \/ c = 117)
    /\ body <> []
    /\ forallb id_char body = true
    /\ (nl = [] \/ nl = [10]).

(** ** Effects: upstream calls, sleeping, exceptions *)

Definition headers := list (pystr * pystr).

Fixpoint header_lookup (key : pystr) (h : headers) : option pystr :=
  match h with
  | [] => None
  | (k, v) :: h' => if pystr_eqb k key then Some v else header_lookup key h'
  end.

(** [hdrs.get(key)] on a [dict] of strings *)
Definition headers_get (h : headers) (key : pystr) : pyval :=
  match header_lookup key h with
  | Some v => PStr v
  | None => PNone
  end.

(** The [urllib.request.Request] that [_slack] builds; [data] is the
    payload that [json.dumps(payload).encode("utf-8")] serialises. *)
Record http_request := {
  url : pystr;
  data : pyval;
  req_headers : headers;
  method : pystr
}.

Inductive event :=
| Urlopen (req : http_request)
| Sleep (seconds : Q).

Definition trace := list event.

(** What [urllib.request.urlopen] does with a request. *)
Inductive urlopen_outcome :=
| Response (text : pystr) (hdrs : headers) (status : Z)
    (* resp.read().decode(), dict(resp.headers), resp.status *)
| HTTPError (fp : option pystr) (hdrs : headers) (code : Z)
    (* the decoded body when e.fp is set, e.headers, e.code *)
| OtherError (name : pystr).
    (* any other subclass of Exception; type(e).__name__ *)

(** A computation reads and extends the trace of events, and returns a
    value or raises. *)
Definition M (A : Type) := trace -> result A * trace.

Definition ret {A} (a : A) : M A := fun tr => (Ok a, tr).

Definition bind {A B} (m : M A) (k : A -> M B) : M B :=
  fun tr =>
    match m tr with
    | (Ok a, tr') => k a tr'
    | (Raise e, tr') => (Raise e, tr')
    end.

Definition lift {A} (r : result A) : M A := fun tr => (r, tr).

Definition emit (e : event) : M unit := fun tr => (Ok tt, tr ++ [e]).

Declare Scope py_scope.
Delimit Scope py_scope with py.
Notation "x <- c ;; k" := (bind c (fun x => k))
  (at level 61, c at next level, right associativity) : py_scope.
Notation "' pat <- c ;; k" := (bind c (fun x => match x with pat => k end))
  (at level 61, pat pattern, c at next level, right associativity) : py_scope.
Notation "c ;; k" := (bind c (fun _ => k))
  (at level 61, right associativity) : py_scope.

(** [time.sleep(seconds)] *)
Definition sleep (seconds : Q) : M unit := emit (Sleep seconds).

(** ** api/notify_late.py *)

Record Request := {
  request_method : pystr;                         (* request.method *)
  request_headers_get : pystr -> option pystr;    (* request.headers.get *)
  get_json : option pyval                         (* None: get_json() raises *)
}.

(** The tuple [(status, headers, body)] a handler returns; [payload] is
    the object whose [json.dumps] is the body. *)
Record http_response := {
  status : Z;
  response_headers : headers;
  payload : pyval
}.

Definition json_response (code : Z) (v : pyval) : http_response :=
  {| status := code;
     response_headers := [(py "content-type", py "application/json")];
     payload := v |}.

Definition error_body (code : string) : pyval :=
  PDict [(py "ok", PBool false); (py "error", PStr (py code))].

(** The fallback text of line 79: an em dash (U+2014) after "Heads up"
    and a right single quotation mark (U+2019) in "you're". *)
Definition FALLBACK : pystr :=
  py "Heads up " ++ [8212] ++ py " you" ++ [8217]
     ++ py "re 1 minute late for your scheduled class.".

(** The header block's title of line 82: an em dash and a plain
    apostrophe (U+0027). *)
Definition HEADER_TITLE : pystr :=
  py "Heads up " ++ [8212] ++ py " you're 1 minute late".

(** [delay = 0.25] *)
Definition delay : Q := (1 # 4)%Q.

(** Line 60: [(u or {}).get("custom_message") or default_message] *)
Definition effective_message (custom default_message : pyval) : pyval :=
  py_or custom default_message.

(** Line 79 *)
Definition message_text (custom_message : pyval) : pyval :=
  py_or custom_message (PStr FALLBACK).

(** Lines 80-87 *)
Definition blocks (room_url : pystr) : pyval :=
  PList
    [ PDict [(py "type", PStr (py "header"));
             (py "text", PDict [(py "type", PStr (py "plain_text"));
                                (py "text", PStr HEADER_TITLE)])];
      PDict [(py "type", PStr (py "section"));
             (py "text", PDict [(py "type", PStr (py "mrkdwn"));
                                (py "text", PStr (py "*Room:* <" ++ room_url
                                                     ++ py "|Join now>"))])];
      PDict [(py "type", PStr (py "actions"));
             (py "elements",
               PList [PDict [(py "type", PStr (py "button"));
                             (py "text", PDict [(py "type", PStr (py "plain_text"));
                                                (py "text", PStr (py "Join Room"))]);
                             (py "url", PStr room_url)]])] ].

(** The first two parts of the test of line 61, evaluated left to right:
    [not slack_id or not re.match(r"^U[A-Z0-9]+$", slack_id, re.I)]. *)
Definition slack_id_rejected (slack_id : pyval) : result bool :=
  if negb (truthy slack_id) then Ok true
  else match Re.re_match slack_id_pattern slack_id true with
       | Ok m => Ok (negb m)
       | Raise e => Raise e
       end.

Definition invalid_result (slack_id : pyval) : pyval :=
  PDict [(py "slack_id", slack_id); (py "ok", PBool false);
         (py "error", PStr (py "invalid_user_entry"))].

Definition failed_result (slack_id : pyval) (step : string) (error retry_after : pyval)
  : pyval :=
  PDict [(py "slack_id", slack_id); (py "ok", PBool false);
         (py "step", PStr (py step)); (py "error", error);
         (py "retry_after", retry_after)].

Definition sent_result (slack_id channel ts : pyval) : pyval :=
  PDict [(py "slack_id", slack_id); (py "ok", PBool true);
         (py "channel", channel); (py "ts", ts)].

Section Dispatcher.

Local Open Scope py_scope.

(** The process-wide configuration read at import time. *)
Variable SLACK_BOT_TOKEN : pystr.
Variable API_BEARER_TOKEN : pystr.

(** [json.loads]; [None] when it raises [JSONDecodeError]. *)
Variable json_loads : pystr -> option pyval.

(** The network: what [urlopen] answers to a request, given the events
    so far. *)
Variable urlopen : trace -> http_request -> urlopen_outcome.

Definition slack_request (path : pystr) (payload : pyval) : http_request :=
  {| url := py "https://slack.com/api/" ++ path;
     data := payload;
     req_headers :=
       [(py "Authorization", py "Bearer " ++ SLACK_BOT_TOKEN);
        (py "Content-Type", py "application/json; charset=utf-8")];
     method := py "POST" |}.

Definition request_failed (name : pystr) : pyval :=
  PDict [(py "ok", PBool false);
         (py "error", PStr (py "request_failed:" ++ name))].

Definition _slack (path : pystr) (payload : pyval) : M (pyval * headers * Z) :=
  fun tr =>
    let req := slack_request path payload in
    let tr' := tr ++ [Urlopen req] in
    match urlopen tr req with
    | Response text hdrs code =>
        match json_loads text with
        | Some j => (Ok (j, hdrs, code), tr')
        | None => (Ok (request_failed (py "JSONDecodeError"), [], 0%Z), tr')
        end
    | HTTPError fp hdrs code =>
        let body := match fp with Some text => text | None => [] end in
        let j := match json_loads body with
                 | Some j => j
                 | None => PDict [(py "ok", PBool false);
                                  (py "error", PStr (py "http_error"));
                                  (py "body", PStr body)]
                 end in
        (Ok (j, hdrs, code), tr')
    | OtherError name => (Ok (request_failed name, [], 0%Z), tr')
    end.

(** Lines 58-60: the three fields are read from [(u or {})]. *)
Definition entry_fields (u : pyval) : result (pyval * pyval * pyval) :=
  let entry := py_or u (PDict []) in
  match get entry (py "slack_id") PNone,
        get entry (py "room_url") PNone,
        get entry (py "custom_message") PNone with
  | Ok slack_id, Ok room_url, Ok custom => Ok (slack_id, room_url, custom)
  | Raise e, _, _ => Raise e
  | _, Raise e, _ => Raise e
  | _, _, Raise e => Raise e
  end.

Definition open_payload (slack_id : pyval) : pyval :=
  PDict [(py "users", slack_id)].

Definition send_payload (channel text : pyval) (room_url : pystr) : pyval :=
  PDict [(py "channel", channel); (py "text", text);
         (py "blocks", blocks room_url)].

(** Lines 78-98, [# 2) send message]: post to the opened channel, record
    the outcome, then pace. *)
Definition send_message (results : list pyval) (slack_id channel custom_message : pyval)
  (room_url : pystr) : M (list pyval) :=
  let text := message_text custom_message in
  '(send_json, send_hdrs, _) <-
    _slack (py "chat.postMessage") (send_payload channel text room_url) ;;
  sent <- lift (get send_json (py "ok") PNone) ;;
  results' <-
    (if negb (truthy sent) then
       error <- lift (get send_json (py "error") (PStr (py "send_failed"))) ;;
       ret (results ++ [failed_result slack_id "send" error
                          (headers_get send_hdrs (py "Retry-After"))])
     else
       ts <- lift (getitem send_json (py "ts")) ;;
       ret (results ++ [sent_result slack_id channel ts])) ;;
  sleep delay ;;
  ret results'.

(** Lines 66-76, [# 1) open DM], followed by the message when the
    conversation opened. *)
Definition open_dm (results : list pyval) (slack_id custom_message : pyval)
  (room_url : pystr) : M (list pyval) :=
  '(open_json, open_hdrs, _) <-
    _slack (py "conversations.open") (open_payload slack_id) ;;
  ok <- lift (get open_json (py "ok") PNone) ;;
  if negb (truthy ok) then
    error <- lift (get open_json (py "error") (PStr (py "open_failed"))) ;;
    sleep delay ;;
    ret (results ++ [failed_result slack_id "open" error
                       (headers_get open_hdrs (py "Retry-After"))])
  else
    chan <- lift (getitem open_json (py "channel")) ;;
    channel <- lift (getitem chan (py "id")) ;;
    send_message results slack_id channel custom_message room_url.

(** One turn of the loop of lines 57-98: the results so far and the
    entry [u] give the results after it. *)
Definition loop_body (default_message : pyval) (results : list pyval) (u : pyval)
  : M (list pyval) :=
  '(slack_id, room_url, custom) <- lift (entry_fields u) ;;
  let custom_message := effective_message custom default_message in
  rejected <- lift (slack_id_rejected slack_id) ;;
  match rejected, room_url with
  | false, PStr room => open_dm results slack_id custom_message room
  | _, _ =>
      (* not slack_id, no match, or room_url is not a str *)
      ret (results ++ [invalid_result slack_id])
  end.

(** [for u in users: ...] *)
Fixpoint for_each (default_message : pyval) (users results : list pyval)
  : M (list pyval) :=
  match users with
  | [] => ret results
  | u :: rest =>
      results' <- loop_body default_message results u ;;
      for_each default_message rest results'
  end.

(** [(request.headers.get("authorization") or "")] *)
Definition authorization (request : Request) : pystr :=
  match request_headers_get request (py "authorization") with
  | Some v => v
  | None => []
  end.

Definition handler (request : Request) : M http_response :=
  if negb (pystr_eqb (request_method request) (py "POST")) then
    ret (json_response 405 (error_body "method_not_allowed"))
  else if truthy (PStr API_BEARER_TOKEN)
          && negb (pystr_eqb (authorization request)
                             (py "Bearer " ++ API_BEARER_TOKEN)) then
    ret (json_response 401 (error_body "unauthorized"))
  else
    match get_json request with
    | None => ret (json_response 400 (error_body "bad_json"))
    | Some body =>
        users <- lift (get body (py "users") PNone) ;;
        match users with
        | PList entries =>
            if negb (truthy users) then
              ret (json_response 422 (error_body "users_array_required"))
            else
              default_message <- lift (get body (py "default_message") PNone) ;;
              results <- for_each default_message entries [] ;;
              ret (json_response 200
                     (PDict [(py "ok", PBool true); (py "results", PList results)]))
        | _ => ret (json_response 422 (error_body "users_array_required"))
        end
    end.

End Dispatcher.

(** The request passes the four checks of lines 38-52: it is a POST, it
    carries the bearer secret when one is configured, and its body is a
    JSON object whose [users] is the non-empty list [users]. *)
Definition passes_validation (bearer : pystr) (request : Request)
  (fields : items) (users : list pyval) : Prop :=
  request_method request = py "POST" /\
  (bearer = [] \/ request_headers_get request (py "authorization")
                  = Some (py "Bearer " ++ bearer)) /\
  get_json request = Some (PDict fields) /\
  dict_lookup (py "users") fields = Some (PList users) /\
  users <> [].

Definition default_message_of (fields : items) : pyval :=
  dict_get fields (py "default_message") PNone.

Definition ok_body (results : list pyval) : pyval :=
  PDict [(py "ok", PBool true); (py "results", PList results)].

(** The reply to the open call, or to the send call that follows it,
    reports success without the field the handler reads next. *)
Definition omits_field (token : pystr) (loads : pystr -> option pyval)
  (net : trace -> http_request -> urlopen_outcome) (sid : pyval) (cm : pyval) (room : pystr) (tr : trace)
  (o : items) (key : pystr) : Prop :=
  (key = py "channel" /\ dict_lookup (py "channel") o = None)
  \/ (key = py "id" /\
      exists c, dict_lookup (py "channel") o = Some (PDict c)
                /\ dict_lookup (py "id") c = None)
  \/ (key = py "ts" /\
      exists c channel s hdrs code,
        dict_lookup (py "channel") o = Some (PDict c)
        /\ dict_lookup (py "id") c = Some channel
        /\ fst (_slack token loads net (py "chat.postMessage")
                  (send_payload channel (message_text cm) room)
                  (tr ++ [Urlopen (slack_request token (py "conversations.open") (open_payload sid))]))
           = Ok (PDict s, hdrs, code)
        /\ truthy (dict_get s (py "ok") PNone) = true
        /\ dict_lookup (py "ts") s = None).


(** ** api/ping.py *)
Module Ping.

(** [flask.jsonify] with keyword arguments: a response of status 200
    whose body is the JSON text of the object they make. *)
Definition jsonify (kwargs : items) : http_response :=
  {| status := 200;
     response_headers := [(py "Content-Type", py "application/json")];
     payload := PDict kwargs |}.

Definition ping : http_response :=
  jsonify [(py "ok", PBool true); (py "pong", PBool true)].

(** A URL rule of the Flask application: the path it matches, the
    methods it was registered for and the view it calls. *)
Record rule := {
  rule_path : pystr;
  rule_methods : list pystr;
  view : http_response
}.

(** [@app.get(path)] is [@app.route(path, methods=["GET"])]. *)
Definition app_get (path : pystr) (f : http_response) : rule :=
  {| rule_path := path; rule_methods := [py "GET"]; view := f |}.

Definition app : list rule := [app_get (py "/") ping].

(** What the application answers: the view's response, the view's status
    and headers without a body (HEAD, which Werkzeug adds to a rule that
    allows GET), Flask's own reply to OPTIONS, or an error page. *)
Inductive answer :=
| Served (r : http_response)
| HeadOnly (r : http_response)
| AutomaticOptions
| NotFound               (* 404 *)
| MethodNotAllowed.      (* 405 *)

Definition allows (r : rule) (m : pystr) : bool :=
  existsb (pystr_eqb m) (rule_methods r).

(** Routing: the rules whose path matches are tried in order; when a path
    matches and no rule allows the method, the answer is 405. *)
Fixpoint dispatch (rules : list rule) (m path : pystr) (path_seen : bool) : answer :=
  match rules with
  | [] => if path_seen then MethodNotAllowed else NotFound
  | r :: rest =>
      if pystr_eqb (rule_path r) path then
        if allows r m then Served (view r)
        else if pystr_eqb m (py "HEAD") && allows r (py "GET") then HeadOnly (view r)
        else if pystr_eqb m (py "OPTIONS") then AutomaticOptions
        else dispatch rest m path true
      else dispatch rest m path path_seen
  end.

Definition wsgi_app (m path : pystr) : answer := dispatch app m path false.

End Ping.

(** An entry the loop can process: an object or a falsy value (read as
    [{}]), whose [slack_id] is a string or falsy. *)
Definition well_formed_entry (u : pyval) : bool :=
  match py_or u (PDict []) with
  | PDict d =>
      let slack_id := dict_get d (py "slack_id") PNone in
      negb (truthy slack_id) || isinstance_str slack_id
  | _ => false
  end.

(** A reply of the upstream API as its documentation describes it: a JSON
    object which, when its [ok] is truthy, carries [channel.id] (the open
    call) or [ts] (the send call). *)
Definition complete_reply (path : pystr) (j : pyval) : bool :=
  match j with
  | PDict o =>
      negb (truthy (dict_get o (py "ok") PNone))
      || (if pystr_eqb path (py "conversations.open") then
            match dict_lookup (py "channel") o with
            | Some (PDict c) =>
                match dict_lookup (py "id") c with Some _ => true | None => false end
            | _ => false
            end
          else
            match dict_lookup (py "ts") o with Some _ => true | None => false end)
  | _ => false
  end.

(** The [users] field fails the check of line 51: it is missing, is not
    a list, or is an empty list. *)
Definition users_rejected (fields : items) : Prop :=
  forall entries, dict_lookup (py "users") fields = Some (PList entries) -> entries = [].

(** The fallback text as the specification spells it: with a plain
    apostrophe (U+0027) in "you're". *)
Definition claimed_fallback : pystr :=
  py "Heads up " ++ [8212]
     ++ py " you're 1 minute late for your scheduled class.".

(** ** Module import: lines 8-9 *)

(** [os.environ]: the variables of the process, names to values. *)
Definition environ := list (pystr * pystr).

Record globals := {
  bot_token : pystr;       (* SLACK_BOT_TOKEN *)
  bearer_token : pystr     (* API_BEARER_TOKEN *)
}.

(** [os.environ["SLACK_BOT_TOKEN"]] raises [KeyError] when the variable is
    not set; [os.environ.get("API_BEARER_TOKEN", "")] falls back to the
    empty string. *)
Definition import_module (env : environ) : result globals :=
  match header_lookup (py "SLACK_BOT_TOKEN") env with
  | None => Raise (KeyError (py "SLACK_BOT_TOKEN"))
  | Some token =>
      Ok {| bot_token := token;
            bearer_token := match header_lookup (py "API_BEARER_TOKEN") env with
                            | Some secret => secret
                            | None => []
                            end |}
  end.

(** The module is imported in the environment [env] and its [handler] is
    called with the request. *)
Definition serve (env : environ) (loads : pystr -> option pyval)
  (net : trace -> http_request -> urlopen_outcome) (request : Request)
  : M http_response :=
  bind (lift (import_module env))
       (fun g => handler (bot_token g) (bearer_token g) loads net request).

(** ** The events of a batch *)

(** The entry passes the test of line 61 and reaches the first call. *)
Definition accepted (u : pyval) : bool :=
  match entry_fields u with
  | Ok (slack_id, PStr _, _) =>
      match slack_id_rejected slack_id with
      | Ok false => true
      | _ => false
      end
  | _ => false
  end.

Definition is_sleep (e : event) : bool :=
  match e with Sleep _ => true | Urlopen _ => false end.

Definition is_call (e : event) : bool :=
  match e with Urlopen _ => true | Sleep _ => false end.

Definition count (p : event -> bool) (tr : trace) : nat :=
  List.length (filter p tr).

(** The only events a batch may leave: a sleep of [delay], an open call
    for a string the id pattern matches, or a post of a truthy text with
    the blocks of a room. *)
Definition vetted_event (token : pystr) (e : event) : Prop :=
  match e with
  | Sleep seconds => seconds = delay
  | Urlopen req =>
      (exists s,
          Re.exec true slack_id_pattern true s = true
          /\ req = slack_request token (py "conversations.open") (open_payload (PStr s)))
      \/ (exists channel text room,
             truthy text = true
             /\ req = slack_request token (py "chat.postMessage")
                       (send_payload channel text room))
  end.

(** The answers of the handler: an error of one of the four checks, or
    the results of the batch. *)
Definition known_answer (r : http_response) : Prop :=
  r = json_response 405 (error_body "method_not_allowed")
  \/ r = json_response 401 (error_body "unauthorized")
  \/ r = json_response 400 (error_body "bad_json")
  \/ r = json_response 422 (error_body "users_array_required")
  \/ exists results, r = json_response 200 (ok_body results).

(** ** Concrete requests and networks

    The fixtures the examples, witnesses and counterexamples run on. *)
Module Demo.

Definition token : pystr := py "xoxb-demo".

Definition opened : pyval :=
  PDict [(py "ok", PBool true);
         (py "channel", PDict [(py "id", PStr (py "D024BE91L"))])].

Definition posted : pyval :=
  PDict [(py "ok", PBool true); (py "ts", PStr (py "1503435956.000247"))].

Definition user_not_found : pyval :=
  PDict [(py "ok", PBool false); (py "error", PStr (py "user_not_found"))].

Definition ok_without_channel : pyval :=
  PDict [(py "ok", PBool true)].

Definition channel_without_id : pyval :=
  PDict [(py "ok", PBool true); (py "channel", PDict [])].

Definition posted_without_ts : pyval :=
  PDict [(py "ok", PBool true)].

(** [json.loads] on the reply bodies of the fixtures; a body is named by
    a tag here instead of being spelt out. *)
Definition loads (text : pystr) : option pyval :=
  if pystr_eqb text (py "opened") then Some opened
  else if pystr_eqb text (py "posted") then Some posted
  else if pystr_eqb text (py "user_not_found") then Some user_not_found
  else if pystr_eqb text (py "ok_without_channel") then Some ok_without_channel
  else if pystr_eqb text (py "channel_without_id") then Some channel_without_id
  else if pystr_eqb text (py "posted_without_ts") then Some posted_without_ts
  else None.

Definition is_open (req : http_request) : bool :=
  pystr_eqb (url req) (py "https://slack.com/api/conversations.open").

(** A network that answers the two operations with fixed outcomes. *)
Definition network (on_open on_send : urlopen_outcome)
  : trace -> http_request -> urlopen_outcome :=
  fun _ req => if is_open req then on_open else on_send.

Definition replies (text : string) : urlopen_outcome :=
  Response (py text) [] 200.

Definition healthy := network (replies "opened") (replies "posted").

Definition post (body : pyval) : Request :=
  {| request_method := py "POST";
     request_headers_get := fun _ => None;
     get_json := Some body |}.

Definition batch (users : list pyval) : pyval :=
  PDict [(py "users", PList users)].

Definition entry (slack_id room_url : string) : pyval :=
  PDict [(py "slack_id", PStr (py slack_id)); (py "room_url", PStr (py room_url))].

(** The handler with the bot token of the fixtures and no shared secret. *)
Definition run (net : trace -> http_request -> urlopen_outcome) (request : Request)
  : result http_response * trace :=
  handler token [] loads net request [].

(** A reply of status 429 with a JSON body and a Retry-After header, and
    an error page that is not JSON. *)
Definition ratelimited : pyval :=
  PDict [(py "ok", PBool false); (py "error", PStr (py "ratelimited"))].

Definition loads_more (text : pystr) : option pyval :=
  if pystr_eqb text (py "ratelimited") then Some ratelimited else loads text.

Definition retry_in_30 : headers := [(py "Retry-After", py "30")].

Definition environment : environ :=
  [(py "SLACK_BOT_TOKEN", token)].

End Demo.

(** * Properties *)

(** ** Strings and the pattern, on examples *)

Lemma pystr_eqb_eq (a b : pystr) : pystr_eqb a b = true <-> a = b.
Proof.
  unfold pystr_eqb. destruct (list_eq_dec N.eq_dec a b); split; congruence.
Qed.

Lemma pystr_eqb_refl (a : pystr) : pystr_eqb a a = true.
Proof. now apply pystr_eqb_eq. Qed.

Lemma pystr_eqb_neq (a b : pystr) : pystr_eqb a b = false <-> a <> b.
Proof.
  unfold pystr_eqb. destruct (list_eq_dec N.eq_dec a b); split; congruence.
Qed.

Example match_U123ABC :
  Re.re_match slack_id_pattern (PStr (py "U123ABC")) true = Ok true.
Proof. reflexivity. Qed.

Example match_lower_case :
  Re.re_match slack_id_pattern (PStr (py "u12ab")) true = Ok true.
Proof. reflexivity. Qed.

Example no_match_x123 :
  Re.re_match slack_id_pattern (PStr (py "x123")) true = Ok false.
Proof. reflexivity. Qed.

Example no_match_bare_U :
  Re.re_match slack_id_pattern (PStr (py "U")) true = Ok false.
Proof. reflexivity. Qed.

Example no_match_without_flag :
  Re.re_match slack_id_pattern (PStr (py "u12ab")) false = Ok false.
Proof. reflexivity. Qed.

Example match_before_final_newline :
  Re.re_match slack_id_pattern (PStr (py "U1" ++ [10])) true = Ok true.
Proof. reflexivity. Qed.

Example match_kelvin_sign :
  Re.re_match slack_id_pattern (PStr (py "U" ++ [8490])) true = Ok true.
Proof. reflexivity. Qed.

Example match_of_an_int :
  Re.re_match slack_id_pattern (PInt 5) true = Raise TypeError.
Proof. reflexivity. Qed.

(** ** The handler, on examples *)

(** The example of the specification: one well-formed entry and an
    upstream that accepts both calls. *)
Example one_user_notified :
  fst (Demo.run Demo.healthy (Demo.post (Demo.batch [Demo.entry "U123ABC" "https://x"])))
  = Ok (json_response 200
          (PDict [(py "ok", PBool true);
                  (py "results",
                    PList [sent_result (PStr (py "U123ABC")) (PStr (py "D024BE91L"))
                             (PStr (py "1503435956.000247"))])])).
Proof. vm_compute. reflexivity. Qed.

Example one_user_notified_trace :
  snd (Demo.run Demo.healthy (Demo.post (Demo.batch [Demo.entry "U123ABC" "https://x"])))
  = [Urlopen (slack_request Demo.token (py "conversations.open")
                (open_payload (PStr (py "U123ABC"))));
     Urlopen (slack_request Demo.token (py "chat.postMessage")
                (send_payload (PStr (py "D024BE91L")) (PStr FALLBACK) (py "https://x")));
     Sleep delay].
Proof. vm_compute. reflexivity. Qed.

Example empty_users_is_422 :
  Demo.run Demo.healthy (Demo.post (Demo.batch []))
  = (Ok (json_response 422 (error_body "users_array_required")), []).
Proof. vm_compute. reflexivity. Qed.

(** ** Laws of the monad and of the loop *)

Lemma bind_ok {A B} (m : M A) (k : A -> M B) tr a tr' :
  m tr = (Ok a, tr') -> bind m k tr = k a tr'.
Proof. intros H. unfold bind. now rewrite H. Qed.

Lemma bind_raise {A B} (m : M A) (k : A -> M B) tr e tr' :
  m tr = (Raise e, tr') -> bind m k tr = (Raise e, tr').
Proof. intros H. unfold bind. now rewrite H. Qed.

Lemma bind_lift_ok {A B} (a : A) (k : A -> M B) tr :
  bind (lift (Ok a)) k tr = k a tr.
Proof. reflexivity. Qed.

Lemma bind_lift_raise {A B} e (k : A -> M B) tr :
  bind (lift (Raise e)) k tr = (Raise e, tr).
Proof. reflexivity. Qed.

Section DispatcherFacts.

Variable token bearer : pystr.
Variable loads : pystr -> option pyval.
Variable net : trace -> http_request -> urlopen_outcome.

Local Abbreviation slack := (_slack token loads net).
Local Abbreviation body := (loop_body token loads net).
Local Abbreviation loop := (for_each token loads net).
Local Abbreviation handle := (handler token bearer loads net).
Local Abbreviation call := (slack_request token).

(** [_slack] never raises, and records exactly its own request. *)
Lemma slack_returns path payload tr :
  exists j hdrs code,
    slack path payload tr = (Ok (j, hdrs, code), tr ++ [Urlopen (call path payload)]).
Proof.
  unfold _slack.
  destruct (net tr (call path payload)) as [text hdrs code | fp hdrs code | name].
  - destruct (loads text); eauto.
  - eauto.
  - eauto.
Qed.

Lemma slack_fst path payload tr r :
  fst (slack path payload tr) = Ok r ->
  slack path payload tr = (Ok r, tr ++ [Urlopen (call path payload)]).
Proof.
  destruct (slack_returns path payload tr) as (j & hdrs & code & E).
  rewrite E. simpl. intros H. now inversion H.
Qed.

Lemma loop_app dm xs ys rs tr :
  loop dm (xs ++ ys) rs tr = bind (loop dm xs rs) (loop dm ys) tr.
Proof.
  revert rs tr. induction xs as [|x xs IH]; intros rs tr; simpl.
  - reflexivity.
  - unfold bind. destruct (body dm rs x tr) as [[rs'|e] tr'].
    + rewrite IH. reflexivity.
    + reflexivity.
Qed.

(** An entry the local validation accepts reaches the first call. *)
Lemma body_accepted dm rs u sid room custom tr :
  entry_fields u = Ok (sid, PStr room, custom) ->
  slack_id_rejected sid = Ok false ->
  body dm rs u tr = open_dm token loads net rs sid (effective_message custom dm) room tr.
Proof.
  intros F R. unfold loop_body.
  rewrite F, bind_lift_ok. rewrite R, bind_lift_ok. reflexivity.
Qed.

Lemma open_dm_refused rs sid cm room tr o hdrs code :
  fst (slack (py "conversations.open") (open_payload sid) tr) = Ok (PDict o, hdrs, code) ->
  truthy (dict_get o (py "ok") PNone) = false ->
  open_dm token loads net rs sid cm room tr =
    (Ok (rs ++ [failed_result sid "open"
                  (dict_get o (py "error") (PStr (py "open_failed")))
                  (headers_get hdrs (py "Retry-After"))]),
     tr ++ [Urlopen (call (py "conversations.open") (open_payload sid)); Sleep delay]).
Proof.
  intros S K. apply slack_fst in S. unfold open_dm.
  rewrite (bind_ok _ _ _ _ _ S). cbn [get]. rewrite bind_lift_ok, K. cbn [negb].
  rewrite bind_lift_ok. unfold sleep, emit, bind, ret.
  now rewrite <- app_assoc.
Qed.

Lemma open_dm_opened rs sid cm room tr o hdrs code c channel :
  fst (slack (py "conversations.open") (open_payload sid) tr) = Ok (PDict o, hdrs, code) ->
  truthy (dict_get o (py "ok") PNone) = true ->
  dict_lookup (py "channel") o = Some (PDict c) ->
  dict_lookup (py "id") c = Some channel ->
  open_dm token loads net rs sid cm room tr =
    send_message token loads net rs sid channel cm room
      (tr ++ [Urlopen (call (py "conversations.open") (open_payload sid))]).
Proof.
  intros S K C I. apply slack_fst in S. unfold open_dm.
  rewrite (bind_ok _ _ _ _ _ S). cbn [get]. rewrite bind_lift_ok, K. cbn [negb].
  unfold getitem at 1. rewrite C, bind_lift_ok.
  unfold getitem. rewrite I, bind_lift_ok. reflexivity.
Qed.

Lemma send_message_refused rs sid channel cm room tr s hdrs code :
  fst (slack (py "chat.postMessage")
         (send_payload channel (message_text cm) room) tr) = Ok (PDict s, hdrs, code) ->
  truthy (dict_get s (py "ok") PNone) = false ->
  send_message token loads net rs sid channel cm room tr =
    (Ok (rs ++ [failed_result sid "send"
                  (dict_get s (py "error") (PStr (py "send_failed")))
                  (headers_get hdrs (py "Retry-After"))]),
     tr ++ [Urlopen (call (py "chat.postMessage")
                       (send_payload channel (message_text cm) room)); Sleep delay]).
Proof.
  intros S K. apply slack_fst in S. unfold send_message.
  rewrite (bind_ok _ _ _ _ _ S). cbn [get]. rewrite bind_lift_ok, K. cbn [negb].
  unfold sleep, emit, bind, ret, lift.
  now rewrite <- app_assoc.
Qed.

Lemma send_message_sent rs sid channel cm room tr s hdrs code ts :
  fst (slack (py "chat.postMessage")
         (send_payload channel (message_text cm) room) tr) = Ok (PDict s, hdrs, code) ->
  truthy (dict_get s (py "ok") PNone) = true ->
  dict_lookup (py "ts") s = Some ts ->
  send_message token loads net rs sid channel cm room tr =
    (Ok (rs ++ [sent_result sid channel ts]),
     tr ++ [Urlopen (call (py "chat.postMessage")
                       (send_payload channel (message_text cm) room)); Sleep delay]).
Proof.
  intros S K T. apply slack_fst in S. unfold send_message.
  rewrite (bind_ok _ _ _ _ _ S). cbn [get]. rewrite bind_lift_ok, K. cbn [negb].
  unfold sleep, emit, bind, ret, lift, getitem. rewrite T.
  now rewrite <- app_assoc.
Qed.

Lemma send_message_no_ts rs sid channel cm room tr s hdrs code :
  fst (slack (py "chat.postMessage")
         (send_payload channel (message_text cm) room) tr) = Ok (PDict s, hdrs, code) ->
  truthy (dict_get s (py "ok") PNone) = true ->
  dict_lookup (py "ts") s = None ->
  send_message token loads net rs sid channel cm room tr =
    (Raise (KeyError (py "ts")),
     tr ++ [Urlopen (call (py "chat.postMessage")
                       (send_payload channel (message_text cm) room))]).
Proof.
  intros S K T. apply slack_fst in S. unfold send_message.
  rewrite (bind_ok _ _ _ _ _ S). cbn [get]. rewrite bind_lift_ok, K. cbn [negb].
  unfold bind, lift, getitem. now rewrite T.
Qed.


Lemma slack_transport_failure path payload tr name :
  net tr (call path payload) = OtherError name ->
  slack path payload tr =
    (Ok (request_failed name, [], 0%Z), tr ++ [Urlopen (call path payload)]).
Proof. intros H. unfold _slack. now rewrite H. Qed.


Lemma handler_validated request fields users tr :
  passes_validation bearer request fields users ->
  handle request tr =
    bind (loop (default_message_of fields) users [])
         (fun results => ret (json_response 200 (ok_body results))) tr.
Proof.
  intros (Hm & Ha & Hj & Hu & Hne). unfold handler.
  rewrite Hm, pystr_eqb_refl. cbn [negb].
  assert (Auth : truthy (PStr bearer)
                 && negb (pystr_eqb (authorization request) (py "Bearer " ++ bearer))
                 = false).
  { destruct Ha as [-> | Ha]; [reflexivity|].
    unfold authorization. rewrite Ha, pystr_eqb_refl. apply andb_false_r. }
  rewrite Auth, Hj. cbn [get]. rewrite bind_lift_ok.
  replace (dict_get fields (py "users") PNone) with (PList users)
    by (unfold dict_get; now rewrite Hu).
  destruct users as [|u us]; [congruence|]. cbn [truthy negb].
  rewrite bind_lift_ok. reflexivity.
Qed.

Lemma open_dm_omitted rs sid cm room tr o hdrs code key :
  fst (slack (py "conversations.open") (open_payload sid) tr) = Ok (PDict o, hdrs, code) ->
  truthy (dict_get o (py "ok") PNone) = true ->
  omits_field token loads net sid cm room tr o key ->
  fst (open_dm token loads net rs sid cm room tr) = Raise (KeyError key).
Proof.
  intros S K [(-> & C) | [(-> & c & C & I) | (-> & c & ch & s & h & cd & C & I & S2 & K2 & T)]].
  - apply slack_fst in S. unfold open_dm.
    rewrite (bind_ok _ _ _ _ _ S). cbn [get]. rewrite bind_lift_ok, K. cbn [negb].
    unfold getitem at 1. now rewrite C.
  - apply slack_fst in S. unfold open_dm.
    rewrite (bind_ok _ _ _ _ _ S). cbn [get]. rewrite bind_lift_ok, K. cbn [negb].
    unfold getitem at 1. rewrite C, bind_lift_ok. unfold getitem. now rewrite I.
  - rewrite (open_dm_opened rs sid cm room tr o hdrs code c ch S K C I).
    now rewrite (send_message_no_ts rs sid ch cm room _ s h cd S2 K2 T).
Qed.

(** C10: in a request that passed validation, let the entries before [u]
    be processed, let [u] pass the local checks and let its open call be
    answered with a truthy [ok].  If that reply has no [channel], or its
    [channel] object has no [id], or the send call that follows is
    answered with a truthy [ok] and no [ts], then the turn for [u] raises
    a [KeyError] for that key instead of giving a result, and so does the
    handler: no response is returned for the batch. *)
Theorem missing_reply_field_raises request fields before u after tr0 rs tr
  sid room custom o hdrs code key :
  passes_validation bearer request fields (before ++ u :: after) ->
  loop (default_message_of fields) before [] tr0 = (Ok rs, tr) ->
  entry_fields u = Ok (sid, PStr room, custom) ->
  slack_id_rejected sid = Ok false ->
  fst (slack (py "conversations.open") (open_payload sid) tr) = Ok (PDict o, hdrs, code) ->
  truthy (dict_get o (py "ok") PNone) = true ->
  omits_field token loads net sid (effective_message custom (default_message_of fields)) room tr o key ->
  fst (body (default_message_of fields) rs u tr) = Raise (KeyError key)
  /\ fst (handle request tr0) = Raise (KeyError key).
Proof.
  intros V L F R S K O.
  assert (B : fst (body (default_message_of fields) rs u tr) = Raise (KeyError key)).
  { rewrite (body_accepted _ rs u sid room custom tr F R).
    now apply open_dm_omitted with (o := o) (hdrs := hdrs) (code := code). }
  split; [exact B|].
  rewrite (handler_validated request fields _ tr0 V).
  unfold bind at 1. rewrite loop_app. rewrite (bind_ok _ _ _ _ _ L).
  cbn [for_each]. unfold bind.
  destruct (body (default_message_of fields) rs u tr) as [[x|e] tr'];
    simpl in B; [discriminate|]. now inversion B.
Qed.

End DispatcherFacts.



(** The open call reports success and carries no channel. *)
Lemma missing_reply_field_raises_witness :
  fst (loop_body Demo.token Demo.loads
         (Demo.network (Demo.replies "ok_without_channel") (Demo.replies "posted"))
         PNone [] (Demo.entry "U123ABC" "https://x") [])
  = Raise (KeyError (py "channel"))
  /\ fst (Demo.run (Demo.network (Demo.replies "ok_without_channel") (Demo.replies "posted"))
            (Demo.post (Demo.batch [Demo.entry "U123ABC" "https://x"])))
     = Raise (KeyError (py "channel")).
Proof.
  apply (missing_reply_field_raises Demo.token [] Demo.loads
           (Demo.network (Demo.replies "ok_without_channel") (Demo.replies "posted"))
           (Demo.post (Demo.batch [Demo.entry "U123ABC" "https://x"]))
           [(py "users", PList [Demo.entry "U123ABC" "https://x"])]
           [] (Demo.entry "U123ABC" "https://x") [] [] [] []
           (PStr (py "U123ABC")) (py "https://x") PNone
           [(py "ok", PBool true)] [] 200%Z (py "channel")).
  - repeat split; try reflexivity.
    + now left.
    + discriminate.
  - reflexivity.
  - reflexivity.
  - reflexivity.
  - reflexivity.
  - reflexivity.
  - left. split; reflexivity.
Defined.

Example channel_without_id_raises :
  Demo.run (Demo.network (Demo.replies "channel_without_id") (Demo.replies "posted"))
    (Demo.post (Demo.batch [Demo.entry "U123ABC" "https://x"]))
  = (Raise (KeyError (py "id")),
     [Urlopen (slack_request Demo.token (py "conversations.open")
                 (open_payload (PStr (py "U123ABC"))))]).
Proof. vm_compute. reflexivity. Qed.

(** The message was posted, and the caller is told nothing. *)
Example posted_without_ts_raises :
  Demo.run (Demo.network (Demo.replies "opened") (Demo.replies "posted_without_ts"))
    (Demo.post (Demo.batch [Demo.entry "U123ABC" "https://x"]))
  = (Raise (KeyError (py "ts")),
     [Urlopen (slack_request Demo.token (py "conversations.open")
                 (open_payload (PStr (py "U123ABC"))));
      Urlopen (slack_request Demo.token (py "chat.postMessage")
                 (send_payload (PStr (py "D024BE91L")) (PStr FALLBACK) (py "https://x")))]).
Proof. vm_compute. reflexivity. Qed.

(** ** The message text *)

Lemma send_message_calls token loads net rs sid channel cm room tr :
  exists rest,
    snd (send_message token loads net rs sid channel cm room tr)
    = tr ++ Urlopen (slack_request token (py "chat.postMessage")
                       (send_payload channel (message_text cm) room)) :: rest.
Proof.
  unfold send_message.
  destruct (slack_returns token loads net (py "chat.postMessage")
              (send_payload channel (message_text cm) room) tr) as (j & h & c & E).
  rewrite (bind_ok _ _ _ _ _ E).
  destruct j as [| b | n | x | s | l | d];
    try (exists []; reflexivity).
  cbn [get]. rewrite bind_lift_ok.
  destruct (truthy (dict_get d (py "ok") PNone)); cbn [negb].
  - unfold bind, lift, getitem.
    destruct (dict_lookup (py "ts") d).
    + exists [Sleep delay]. cbn. now rewrite <- app_assoc.
    + now exists [].
  - exists [Sleep delay]. cbn. now rewrite <- app_assoc.
Qed.

(** C5, as amended: the text of the message is the entry's
    [custom_message] when that is truthy, else the request's
    [default_message] when that is truthy, else the fallback literal of
    the code, whose apostrophe is U+2019; in particular an effective
    message that is absent ([None]) or empty gives the fallback.  That
    text is what the send call of an accepted entry carries. *)
Theorem message_text_resolution token loads net dm rs u sid room custom tr
  o hdrs code c channel :
  entry_fields u = Ok (sid, PStr room, custom) ->
  slack_id_rejected sid = Ok false ->
  fst (_slack token loads net (py "conversations.open") (open_payload sid) tr)
    = Ok (PDict o, hdrs, code) ->
  truthy (dict_get o (py "ok") PNone) = true ->
  dict_lookup (py "channel") o = Some (PDict c) ->
  dict_lookup (py "id") c = Some channel ->
  message_text (effective_message custom dm)
    = (if truthy custom then custom
       else if truthy dm then dm
       else PStr FALLBACK)
  /\ (effective_message custom dm = PNone \/ effective_message custom dm = PStr [] ->
      message_text (effective_message custom dm) = PStr FALLBACK)
  /\ exists rest,
       snd (loop_body token loads net dm rs u tr)
       = tr ++ Urlopen (slack_request token (py "conversations.open") (open_payload sid))
            :: Urlopen (slack_request token (py "chat.postMessage")
                          (send_payload channel
                             (if truthy custom then custom
                              else if truthy dm then dm
                              else PStr FALLBACK) room))
            :: rest.
Proof.
  intros F R S K C I.
  assert (T : message_text (effective_message custom dm)
              = (if truthy custom then custom
                 else if truthy dm then dm else PStr FALLBACK)).
  { unfold message_text, effective_message, py_or.
    destruct (truthy custom) eqn:Tc; [now rewrite Tc|].
    now destruct (truthy dm) eqn:Td; rewrite ?Td. }
  split; [exact T|]. split.
  - intros [E | E]; rewrite E; reflexivity.
  - rewrite (body_accepted token loads net dm rs u sid room custom tr F R).
    rewrite (open_dm_opened token loads net rs sid _ room tr o hdrs code c channel S K C I).
    destruct (send_message_calls token loads net rs sid channel
                (effective_message custom dm) room
                (tr ++ [Urlopen (slack_request token (py "conversations.open")
                                   (open_payload sid))])) as (rest & E).
    exists rest. rewrite E, T, <- app_assoc. reflexivity.
Qed.

(** An entry with its own message next to a request-level default: the
    entry's message is the one sent. *)
Lemma message_text_resolution_witness :
  message_text (effective_message (PStr (py "Class started")) (PStr (py "You are late")))
  = PStr (py "Class started")
  /\ exists rest,
       snd (loop_body Demo.token Demo.loads Demo.healthy (PStr (py "You are late")) []
              (PDict [(py "slack_id", PStr (py "U123ABC"));
                      (py "room_url", PStr (py "https://x"));
                      (py "custom_message", PStr (py "Class started"))]) [])
       = [] ++ Urlopen (slack_request Demo.token (py "conversations.open")
                          (open_payload (PStr (py "U123ABC"))))
            :: Urlopen (slack_request Demo.token (py "chat.postMessage")
                          (send_payload (PStr (py "D024BE91L"))
                             (PStr (py "Class started")) (py "https://x")))
            :: rest.
Proof.
  pose proof (message_text_resolution Demo.token Demo.loads Demo.healthy
                (PStr (py "You are late")) []
                (PDict [(py "slack_id", PStr (py "U123ABC"));
                        (py "room_url", PStr (py "https://x"));
                        (py "custom_message", PStr (py "Class started"))])
                (PStr (py "U123ABC")) (py "https://x") (PStr (py "Class started")) []
                [(py "ok", PBool true);
                 (py "channel", PDict [(py "id", PStr (py "D024BE91L"))])]
                [] 200%Z [(py "id", PStr (py "D024BE91L"))] (PStr (py "D024BE91L"))
                eq_refl eq_refl eq_refl eq_refl eq_refl eq_refl) as (T & _ & P).
  split; [exact T | exact P].
Defined.

(** C5, the claim as stated fails: with no message of its own and no
    default, the text the handler sends is the literal of line 79, which
    differs from the literal of the claim at its fifteenth code point
    (U+2019 where the claim has U+0027). *)
Lemma fallback_differs_from_claimed_literal :
  message_text (effective_message PNone PNone) = PStr FALLBACK
  /\ pystr_eqb FALLBACK claimed_fallback = false
  /\ nth_error FALLBACK 14 = Some 8217
  /\ nth_error claimed_fallback 14 = Some 39
  /\ snd (Demo.run Demo.healthy (Demo.post (Demo.batch [Demo.entry "U123ABC" "https://x"])))
     = [Urlopen (slack_request Demo.token (py "conversations.open")
                   (open_payload (PStr (py "U123ABC"))));
        Urlopen (slack_request Demo.token (py "chat.postMessage")
                   (send_payload (PStr (py "D024BE91L")) (PStr FALLBACK) (py "https://x")));
        Sleep delay].
Proof. repeat split; vm_compute; reflexivity. Qed.

(** ** The liveness endpoint *)



(** ** Requests on which the handler raises *)

(** C1: the request [{"users": [{"slack_id": "U123ABC", "room_url":
    "https://x"}, "U456DEF"]}] passes validation; the first entry is
    notified, the second (a bare string) makes [(u or {}).get] raise, and
    the handler returns no results array at all. *)
Theorem results_lost_on_string_entry :
  Demo.run Demo.healthy
    (Demo.post (Demo.batch [Demo.entry "U123ABC" "https://x"; PStr (py "U456DEF")]))
  = (Raise AttributeError,
     [Urlopen (slack_request Demo.token (py "conversations.open")
                 (open_payload (PStr (py "U123ABC"))));
      Urlopen (slack_request Demo.token (py "chat.postMessage")
                 (send_payload (PStr (py "D024BE91L")) (PStr FALLBACK) (py "https://x")));
      Sleep delay]).
Proof. vm_compute. reflexivity. Qed.

(** C2: the request [{"users": [{"slack_id": 12345, "room_url":
    "https://x"}]}] passes validation; [re.match] refuses the number and
    the handler raises [TypeError] instead of returning 200. *)
Theorem numeric_slack_id_raises :
  Demo.run Demo.healthy
    (Demo.post (Demo.batch [PDict [(py "slack_id", PInt 12345);
                                   (py "room_url", PStr (py "https://x"))]]))
  = (Raise TypeError, []).
Proof. vm_compute. reflexivity. Qed.

(** C3: a POST whose body is the JSON array [[]] parses, has no [users]
    field, and is not answered with 422: [body.get] raises. *)
Theorem array_body_raises :
  Demo.run Demo.healthy (Demo.post (PList [])) = (Raise AttributeError, []).
Proof. vm_compute. reflexivity. Qed.

(** C4: the entry [{"slack_id": 5, "room_url": 7}] has a [room_url]
    that is not a string; the turn raises [TypeError] in [re.match]
    before [room_url] is looked at, and no [invalid_user_entry] result
    is appended. *)
Theorem numeric_id_hides_room_url_check :
  loop_body Demo.token Demo.loads Demo.healthy PNone []
    (PDict [(py "slack_id", PInt 5); (py "room_url", PInt 7)]) []
  = (Raise TypeError, [])
  /\ Demo.run Demo.healthy
       (Demo.post (Demo.batch [PDict [(py "slack_id", PInt 5); (py "room_url", PInt 7)]]))
     = (Raise TypeError, []).
Proof. split; vm_compute; reflexivity. Qed.

(** C8: an entry that is a number is not read as an entry without
    fields: [(7 or {})] is [7], which has no [get]. *)
Theorem number_entry_raises :
  entry_fields (PInt 7) = Raise AttributeError
  /\ Demo.run Demo.healthy (Demo.post (Demo.batch [PInt 7])) = (Raise AttributeError, []).
Proof. split; vm_compute; reflexivity. Qed.

(** ** One result per entry, in order *)

Section Alignment.

Variable token bearer : pystr.
Variable loads : pystr -> option pyval.
Variable net : trace -> http_request -> urlopen_outcome.

(** The result [r] answers for the slack id [sid]. *)
Local Abbreviation answers sid r := (get r (py "slack_id") PNone = Ok sid).

Lemma send_message_appends_one rs sid channel cm room tr rs' tr' :
  send_message token loads net rs sid channel cm room tr = (Ok rs', tr') ->
  exists r, rs' = rs ++ [r] /\ answers sid r.
Proof.
  unfold send_message.
  destruct (slack_returns token loads net (py "chat.postMessage")
              (send_payload channel (message_text cm) room) tr) as (j & h & c & E).
  rewrite (bind_ok _ _ _ _ _ E).
  destruct j as [| b | n | x | s | l | d]; try discriminate.
  cbn [get]. rewrite bind_lift_ok.
  destruct (truthy (dict_get d (py "ok") PNone)); cbn [negb].
  - unfold bind, lift, getitem.
    destruct (dict_lookup (py "ts") d) as [ts|]; [|discriminate].
    cbn. intros H. inversion H. eexists. split; reflexivity.
  - cbn. intros H. inversion H. eexists. split; reflexivity.
Qed.

Lemma open_dm_appends_one rs sid cm room tr rs' tr' :
  open_dm token loads net rs sid cm room tr = (Ok rs', tr') ->
  exists r, rs' = rs ++ [r] /\ answers sid r.
Proof.
  unfold open_dm.
  destruct (slack_returns token loads net (py "conversations.open")
              (open_payload sid) tr) as (j & h & c & E).
  rewrite (bind_ok _ _ _ _ _ E).
  destruct j as [| b | n | x | s | l | d]; try discriminate.
  cbn [get]. rewrite bind_lift_ok.
  destruct (truthy (dict_get d (py "ok") PNone)); cbn [negb].
  - unfold getitem at 1.
    destruct (dict_lookup (py "channel") d) as [chan|]; [|discriminate].
    rewrite bind_lift_ok.
    destruct (getitem chan (py "id")) as [channel|e]; [|discriminate].
    rewrite bind_lift_ok. apply send_message_appends_one.
  - cbn. intros H. inversion H. eexists. split; reflexivity.
Qed.

Lemma body_appends_one dm rs u tr rs' tr' :
  loop_body token loads net dm rs u tr = (Ok rs', tr') ->
  exists sid room custom r,
    entry_fields u = Ok (sid, room, custom) /\ rs' = rs ++ [r] /\ answers sid r.
Proof.
  unfold loop_body.
  destruct (entry_fields u) as [[[sid room] custom]|e]; [|discriminate].
  rewrite bind_lift_ok.
  destruct (slack_id_rejected sid) as [rejected|e]; [|discriminate].
  rewrite bind_lift_ok. intros H.
  exists sid, room, custom.
  assert (I : forall tr0,
             ret (rs ++ [invalid_result sid]) tr0 = (Ok rs', tr') ->
             exists r, rs' = rs ++ [r] /\ answers sid r).
  { intros tr0 E. inversion E. eexists. split; reflexivity. }
  destruct rejected; [|destruct room];
    try (destruct (I _ H) as (r & ? & ?); now exists r).
  destruct (open_dm_appends_one _ _ _ _ _ _ _ H) as (r & ? & ?). now exists r.
Qed.

(** The results of a finished loop: the ones it started with, then one
    for every entry, in the order of the entries. *)
Lemma loop_appends_in_order dm users rs tr rs' tr' :
  for_each token loads net dm users rs tr = (Ok rs', tr') ->
  exists added,
    rs' = rs ++ added
    /\ Forall2 (fun u r => exists sid room custom,
                   entry_fields u = Ok (sid, room, custom) /\ answers sid r)
               users added.
Proof.
  revert rs tr. induction users as [|u users IH]; intros rs tr; cbn [for_each].
  - intros H. inversion H. exists []. split; [now rewrite app_nil_r | constructor].
  - unfold bind.
    destruct (loop_body token loads net dm rs u tr) as [[rs1|e] tr1] eqn:B;
      [|discriminate].
    intros H. destruct (IH _ _ H) as (added & -> & F).
    destruct (body_appends_one _ _ _ _ _ _ B) as (sid & room & custom & r & Fu & -> & A).
    exists (r :: added). split.
    + now rewrite <- app_assoc.
    + constructor; [now exists sid, room, custom | exact F].
Qed.

(** X2: whenever the handler answers a request that passed validation,
    the answer is 200 with [{"ok": true, "results": results}] and [results]
    holds one result per entry of [users], in the order of [users]: each
    result carries the [slack_id] read from its entry. *)
Theorem results_follow_entries request fields users tr response tr' :
  passes_validation bearer request fields users ->
  handler token bearer loads net request tr = (Ok response, tr') ->
  exists results,
    response = json_response 200 (ok_body results)
    /\ List.length results = List.length users
    /\ Forall2 (fun u r => exists sid room custom,
                   entry_fields u = Ok (sid, room, custom)
                   /\ get r (py "slack_id") PNone = Ok sid)
               users results.
Proof.
  intros V. rewrite (handler_validated token bearer loads net request fields users tr V).
  unfold bind.
  destruct (for_each token loads net (default_message_of fields) users [] tr)
    as [[results|e] tr1] eqn:L; [|discriminate].
  intros H. inversion H. subst.
  destruct (loop_appends_in_order _ _ _ _ _ _ L) as (added & E & F).
  cbn [app] in E. subst added.
  exists results. split; [reflexivity|]. split; [|exact F].
  symmetry. eapply Forall2_length, F.
Qed.

End Alignment.

Lemma results_follow_entries_witness :
  exists results,
    json_response 200
      (ok_body [invalid_result PNone;
                sent_result (PStr (py "U123ABC")) (PStr (py "D024BE91L"))
                  (PStr (py "1503435956.000247"))])
    = json_response 200 (ok_body results)
    /\ List.length results = List.length [PNone; Demo.entry "U123ABC" "https://x"]
    /\ Forall2 (fun u r => exists sid room custom,
                   entry_fields u = Ok (sid, room, custom)
                   /\ get r (py "slack_id") PNone = Ok sid)
               [PNone; Demo.entry "U123ABC" "https://x"] results.
Proof.
  apply (results_follow_entries Demo.token [] Demo.loads Demo.healthy
           (Demo.post (Demo.batch [PNone; Demo.entry "U123ABC" "https://x"]))
           [(py "users", PList [PNone; Demo.entry "U123ABC" "https://x"])]
           [PNone; Demo.entry "U123ABC" "https://x"] []
           _
           [Urlopen (slack_request Demo.token (py "conversations.open")
                       (open_payload (PStr (py "U123ABC"))));
            Urlopen (slack_request Demo.token (py "chat.postMessage")
                       (send_payload (PStr (py "D024BE91L")) (PStr FALLBACK) (py "https://x")));
            Sleep delay]).
  - repeat split; try reflexivity.
    + now left.
    + discriminate.
  - vm_compute. reflexivity.
Defined.

(** ** The checks before the loop *)

(** X1: the four checks run in the order of lines 38-52, each answering at
    once and before any upstream call: a method other than POST gives
    405; then, with a secret configured, an Authorization header other
    than ["Bearer <secret>"] gives 401 (with no secret the header is not
    looked at); then a body that does not parse gives 400; then, for a
    body that is a JSON object, a [users] that is missing, not a list or
    empty gives 422. *)
Theorem validation_order token bearer loads net request tr :
  (request_method request <> py "POST" ->
     handler token bearer loads net request tr
     = (Ok (json_response 405 (error_body "method_not_allowed")), tr))
  /\ (request_method request = py "POST" ->
      bearer <> [] ->
      request_headers_get request (py "authorization") <> Some (py "Bearer " ++ bearer) ->
      handler token bearer loads net request tr
      = (Ok (json_response 401 (error_body "unauthorized")), tr))
  /\ (request_method request = py "POST" ->
      (bearer = [] \/ request_headers_get request (py "authorization")
                      = Some (py "Bearer " ++ bearer)) ->
      (get_json request = None ->
         handler token bearer loads net request tr
         = (Ok (json_response 400 (error_body "bad_json")), tr))
      /\ (forall fields,
            get_json request = Some (PDict fields) ->
            users_rejected fields ->
            handler token bearer loads net request tr
            = (Ok (json_response 422 (error_body "users_array_required")), tr))).
Proof.
  split; [|split].
  - intros Hm. unfold handler.
    apply pystr_eqb_neq in Hm. now rewrite Hm.
  - intros Hm Hb Ha. unfold handler.
    rewrite Hm, pystr_eqb_refl. cbn [negb].
    assert (T : truthy (PStr bearer) = true) by (destruct bearer; [congruence | reflexivity]).
    assert (N : pystr_eqb (authorization request) (py "Bearer " ++ bearer) = false).
    { apply pystr_eqb_neq. unfold authorization.
      destruct (request_headers_get request (py "authorization")) as [v|].
      - intros E. apply Ha. now rewrite E.
      - discriminate. }
    now rewrite T, N.
  - intros Hm Ha.
    assert (Auth : truthy (PStr bearer)
                   && negb (pystr_eqb (authorization request) (py "Bearer " ++ bearer))
                   = false).
    { destruct Ha as [-> | Ha]; [reflexivity|].
      unfold authorization. rewrite Ha, pystr_eqb_refl. apply andb_false_r. }
    split.
    + intros Hj. unfold handler.
      rewrite Hm, pystr_eqb_refl. cbn [negb]. now rewrite Auth, Hj.
    + intros fields Hj Hu. unfold handler.
      rewrite Hm, pystr_eqb_refl. cbn [negb]. rewrite Auth, Hj.
      cbn [get]. rewrite bind_lift_ok. unfold dict_get at 1 2.
      destruct (dict_lookup (py "users") fields) as [[| b | n | x | s | l | d]|] eqn:U;
        try reflexivity.
      rewrite (Hu l U). reflexivity.
Qed.

(** ** Entries the local checks turn down *)

(** X4: an entry whose fields can be read and whose [slack_id] is falsy
    (absent, [None], empty), or is a string the pattern does not match,
    or is a string while [room_url] is not one, gets the result
    [{slack_id, ok: false, error: "invalid_user_entry"}]; the turn makes
    no upstream call and does not sleep. *)
Theorem rejected_entry_is_invalid token loads net dm rs u sid room custom tr :
  entry_fields u = Ok (sid, room, custom) ->
  truthy sid = false
  \/ (exists s, sid = PStr s /\ Re.exec true slack_id_pattern true s = false)
  \/ ((exists s, sid = PStr s) /\ isinstance_str room = false) ->
  loop_body token loads net dm rs u tr = (Ok (rs ++ [invalid_result sid]), tr).
Proof.
  intros F H. unfold loop_body. rewrite F, bind_lift_ok.
  destruct H as [T | [(s & -> & N) | ((s & ->) & I)]].
  - unfold slack_id_rejected. rewrite T. reflexivity.
  - unfold slack_id_rejected. destruct (truthy (PStr s)); [|reflexivity].
    cbn [negb Re.re_match]. rewrite N. reflexivity.
  - destruct (slack_id_rejected (PStr s)) as [[|]|e] eqn:R.
    + reflexivity.
    + rewrite bind_lift_ok. destruct room; try reflexivity. discriminate.
    + unfold slack_id_rejected in R.
      destruct (truthy (PStr s)); discriminate.
Qed.

Lemma rejected_entry_is_invalid_witness :
  loop_body Demo.token Demo.loads Demo.healthy PNone []
    (Demo.entry "x123" "https://x") []
  = (Ok ([] ++ [invalid_result (PStr (py "x123"))]), []).
Proof.
  apply (rejected_entry_is_invalid Demo.token Demo.loads Demo.healthy PNone []
           (Demo.entry "x123" "https://x") (PStr (py "x123")) (PStr (py "https://x"))
           PNone [] eq_refl).
  right. left. exists (py "x123"). split; reflexivity.
Defined.

(** X5: a falsy entry ([None], [false], [0], an empty string, list or
    object) is read as an entry without fields and gets the result
    [{slack_id: None, ok: false, error: "invalid_user_entry"}]. *)
Theorem falsy_entry_has_no_fields token loads net dm rs u tr :
  truthy u = false ->
  entry_fields u = Ok (PNone, PNone, PNone)
  /\ loop_body token loads net dm rs u tr = (Ok (rs ++ [invalid_result PNone]), tr).
Proof.
  intros T.
  assert (F : entry_fields u = Ok (PNone, PNone, PNone)).
  { unfold entry_fields, py_or. now rewrite T. }
  split; [exact F|].
  unfold loop_body. rewrite F, bind_lift_ok. reflexivity.
Qed.

Lemma falsy_entry_has_no_fields_witness :
  entry_fields PNone = Ok (PNone, PNone, PNone)
  /\ loop_body Demo.token Demo.loads Demo.healthy PNone [] PNone []
     = (Ok ([] ++ [invalid_result PNone]), []).
Proof.
  apply (falsy_entry_has_no_fields Demo.token Demo.loads Demo.healthy PNone [] PNone []
           eq_refl).
Defined.

(** ** Batches that are always answered *)

Section Totality.

Variable token bearer : pystr.
Variable loads : pystr -> option pyval.
Variable net : trace -> http_request -> urlopen_outcome.

(** Every reply the network can give is complete. *)
Hypothesis replies_complete :
  forall tr path payload j hdrs code,
    fst (_slack token loads net path payload tr) = Ok (j, hdrs, code) ->
    complete_reply path j = true.

Lemma send_message_returns rs sid channel cm room tr :
  exists rs' tr', send_message token loads net rs sid channel cm room tr = (Ok rs', tr').
Proof.
  unfold send_message.
  destruct (slack_returns token loads net (py "chat.postMessage")
              (send_payload channel (message_text cm) room) tr) as (j & h & c & E).
  rewrite (bind_ok _ _ _ _ _ E).
  assert (C : complete_reply (py "chat.postMessage") j = true).
  { apply (replies_complete tr _ (send_payload channel (message_text cm) room) j h c).
    now rewrite E. }
  destruct j as [| b | n | x | s | l | d]; try discriminate.
  cbn [get]. rewrite bind_lift_ok.
  unfold complete_reply in C.
  destruct (truthy (dict_get d (py "ok") PNone)); cbn [negb] in *.
  - unfold bind, lift, getitem.
    change (pystr_eqb (py "chat.postMessage") (py "conversations.open")) with false in C.
    cbn [orb] in C.
    destruct (dict_lookup (py "ts") d) as [ts|]; [|discriminate].
    do 2 eexists; reflexivity.
  - do 2 eexists; reflexivity.
Qed.

Lemma open_dm_returns rs sid cm room tr :
  exists rs' tr', open_dm token loads net rs sid cm room tr = (Ok rs', tr').
Proof.
  unfold open_dm.
  destruct (slack_returns token loads net (py "conversations.open")
              (open_payload sid) tr) as (j & h & c & E).
  rewrite (bind_ok _ _ _ _ _ E).
  assert (C : complete_reply (py "conversations.open") j = true).
  { apply (replies_complete tr _ (open_payload sid) j h c). now rewrite E. }
  destruct j as [| b | n | x | s | l | d]; try discriminate.
  cbn [get]. rewrite bind_lift_ok.
  unfold complete_reply in C.
  destruct (truthy (dict_get d (py "ok") PNone)); cbn [negb] in *.
  - change (pystr_eqb (py "conversations.open") (py "conversations.open")) with true in C.
    cbn [orb] in C.
    unfold getitem at 1.
    destruct (dict_lookup (py "channel") d) as [[| | | | | | ch]|]; try discriminate.
    rewrite bind_lift_ok. unfold getitem.
    destruct (dict_lookup (py "id") ch) as [channel|]; [|discriminate].
    rewrite bind_lift_ok. apply send_message_returns.
  - do 2 eexists; reflexivity.
Qed.

Lemma body_returns dm rs u tr :
  well_formed_entry u = true ->
  exists rs' tr', loop_body token loads net dm rs u tr = (Ok rs', tr').
Proof.
  unfold well_formed_entry, loop_body, entry_fields.
  destruct (py_or u (PDict [])) as [| | | | | | d]; try discriminate.
  cbn [get]. rewrite bind_lift_ok. intros W.
  unfold slack_id_rejected.
  destruct (truthy (dict_get d (py "slack_id") PNone)) eqn:T; cbn [negb orb] in *.
  - destruct (dict_get d (py "slack_id") PNone) as [| | | | s | |]; try discriminate.
    cbn [Re.re_match]. rewrite bind_lift_ok.
    destruct (negb (Re.exec true slack_id_pattern true s)); [do 2 eexists; reflexivity|].
    destruct (dict_get d (py "room_url") PNone); try (do 2 eexists; reflexivity).
    apply open_dm_returns.
  - rewrite bind_lift_ok. do 2 eexists; reflexivity.
Qed.

Lemma loop_returns dm users rs tr :
  forallb well_formed_entry users = true ->
  exists rs' tr', for_each token loads net dm users rs tr = (Ok rs', tr').
Proof.
  revert rs tr. induction users as [|u users IH]; intros rs tr; cbn [forallb for_each].
  - do 2 eexists; reflexivity.
  - intros W. apply andb_true_iff in W as [Wu W].
    destruct (body_returns dm rs u tr Wu) as (rs1 & tr1 & B).
    rewrite (bind_ok _ _ _ _ _ B). now apply IH.
Qed.


End Totality.


(** ** What the slack id pattern accepts *)

Lemma codepoints_from_spec x lo n :
  In x (Re.codepoints_from lo n) <-> lo <= x < lo + N.of_nat n.
Proof.
  revert lo. induction n as [|n IH]; intros lo; cbn [Re.codepoints_from In].
  - lia.
  - rewrite IH. lia.
Qed.

Lemma range_spec x lo hi : In x (Re.range lo hi) <-> lo <= x <= hi.
Proof. unfold Re.range. rewrite codepoints_from_spec. lia. Qed.

Lemma existsb_eqb_In x l : existsb (N.eqb x) l = true <-> In x l.
Proof.
  rewrite existsb_exists. split.
  - intros (y & I & E). apply N.eqb_eq in E. now subst.
  - intros I. exists x. split; [exact I | apply N.eqb_refl].
Qed.

Lemma literal_U_matches ch :
  Re.atom_matches true (Re.LITERAL 85) ch = true <-> ch = 85 \/ ch = 117.
Proof.
  unfold Re.atom_matches. rewrite existsb_eqb_In. cbn [Re.charset flat_map app In].
  change (Re.unicode_tolower 85) with 117. change (Re.fixes 117) with (@nil codepoint).
  cbn [app In]. unfold Re.unicode_tolower.
  destruct ((65 <=? ch) && (ch <=? 90)) eqn:U;
    [| destruct (ch =? 304) eqn:I; [| destruct (ch =? 8490) eqn:K]];
    rewrite ?andb_true_iff, ?andb_false_iff, ?N.leb_le, ?N.leb_gt, ?N.eqb_eq, ?N.eqb_neq in *;
    lia.
Qed.

Lemma id_class_matches ch :
  Re.atom_matches true (Re.IN [(65, 90); (48, 57)]) ch = id_char ch.
Proof.
  apply eq_true_iff_eq.
  unfold Re.atom_matches. rewrite existsb_eqb_In. unfold Re.charset.
  rewrite in_flat_map. cbn [flat_map fst snd]. rewrite app_nil_r.
  unfold id_char.
  rewrite !orb_true_iff, !andb_true_iff, !N.leb_le, !N.eqb_eq.
  split.
  - intros (i & Hi & Hx). rewrite in_app_iff, !range_spec in Hi.
    cbn [In] in Hx. unfold Re.unicode_tolower, Re.fixes in Hx.
    repeat match type of Hx with
           | context [if ?b then _ else _] =>
               let E := fresh "E" in destruct b eqn:E
           end;
      cbn [In] in Hx;
      rewrite ?andb_true_iff, ?andb_false_iff, ?N.leb_le, ?N.leb_gt, ?N.eqb_eq, ?N.eqb_neq in *;
      lia.
  - intros H.
    assert (L : 65 <= ch <= 90 \/ 97 <= ch <= 122 \/ 48 <= ch <= 57
                \/ ch = 304 \/ ch = 305 \/ ch = 383 \/ ch = 8490) by lia.
    clear H.
    destruct L as [L | [L | [L | [L | [L | [L | L]]]]]].
    + exists ch. rewrite in_app_iff, !range_spec. split; [lia|].
      left. unfold Re.unicode_tolower.
      replace ((65 <=? ch) && (ch <=? 90)) with true
        by (symmetry; apply andb_true_iff; rewrite !N.leb_le; lia).
      replace ((65 <=? ch + 32) && (ch + 32 <=? 90)) with false
        by (symmetry; apply andb_false_iff; rewrite !N.leb_gt; lia).
      replace (ch + 32 =? 304) with false by (symmetry; apply N.eqb_neq; lia).
      replace (ch + 32 =? 8490) with false by (symmetry; apply N.eqb_neq; lia).
      reflexivity.
    + exists (ch - 32). rewrite in_app_iff, !range_spec. split; [lia|].
      left. unfold Re.unicode_tolower.
      replace ((65 <=? ch) && (ch <=? 90)) with false
        by (symmetry; apply andb_false_iff; rewrite !N.leb_gt; lia).
      replace (ch =? 304) with false by (symmetry; apply N.eqb_neq; lia).
      replace (ch =? 8490) with false by (symmetry; apply N.eqb_neq; lia).
      replace ((65 <=? ch - 32) && (ch - 32 <=? 90)) with true
        by (symmetry; apply andb_true_iff; rewrite !N.leb_le; lia).
      lia.
    + exists ch. rewrite in_app_iff, !range_spec. split; [lia|].
      left. unfold Re.unicode_tolower.
      replace ((65 <=? ch) && (ch <=? 90)) with false
        by (symmetry; apply andb_false_iff; rewrite !N.leb_gt; lia).
      replace (ch =? 304) with false by (symmetry; apply N.eqb_neq; lia).
      replace (ch =? 8490) with false by (symmetry; apply N.eqb_neq; lia).
      reflexivity.
    + subst ch. exists 73. rewrite in_app_iff, !range_spec. split; [lia|].
      left. reflexivity.
    + subst ch. exists 73. rewrite in_app_iff, !range_spec. split; [lia|].
      right. left. reflexivity.
    + subst ch. exists 83. rewrite in_app_iff, !range_spec. split; [lia|].
      right. left. reflexivity.
    + subst ch. exists 75. rewrite in_app_iff, !range_spec. split; [lia|].
      left. reflexivity.
Qed.

Lemma at_end_spec s : Re.at_end s = true <-> s = [] \/ s = [10].
Proof.
  destruct s as [|c [|c' s]]; cbn.
  - intuition congruence.
  - destruct c as [|p]; [intuition congruence|].
    do 4 (destruct p as [p|p|]; try (intuition congruence)).
  - destruct c as [|p]; [intuition congruence|].
    do 4 (destruct p as [p|p|]; try (intuition congruence)).
Qed.

(** After the first body character: more body characters, then the end. *)
Lemma repeat_to_end_spec s :
  Re.repeat_max (Re.atom_matches true (Re.IN [(65, 90); (48, 57)]))
    (Re.exec true [Re.AT_END] false) s = true
  <-> exists body nl,
        s = body ++ nl /\ forallb id_char body = true /\ (nl = [] \/ nl = [10]).
Proof.
  induction s as [|ch s IH]; cbn [Re.repeat_max].
  - split; [|reflexivity]. intros _. exists [], []. repeat split. now left.
  - rewrite orb_true_iff, andb_true_iff, IH, id_class_matches.
    cbn [Re.exec]. rewrite andb_true_r, at_end_spec. split.
    + intros [(C & body & nl & -> & B & N) | E].
      * exists (ch :: body), nl. cbn [forallb app]. rewrite C, B. now repeat split.
      * exists [], (ch :: s). repeat split. destruct E as [E | E]; [discriminate | now right].
    + intros (body & nl & E & B & N). destruct body as [|c body].
      * right. cbn [app] in E. rewrite E. exact N.
      * left. cbn [app forallb] in *. inversion E. subst.
        apply andb_true_iff in B as [C B]. split; [exact C|].
        now exists body, nl.
Qed.

(** X6: [re.match] with the id pattern and [re.I] succeeds exactly on the
    strings made of [U] or [u], one or more letters or digits (the ASCII
    ones and the four letters that fold onto them), and then nothing or
    a single final newline. *)
Theorem slack_id_pattern_language s :
  Re.re_match slack_id_pattern (PStr s) true = Ok true <-> slack_id_shaped s.
Proof.
  unfold slack_id_shaped. cbn [Re.re_match].
  split.
  - intros H. assert (E : Re.exec true slack_id_pattern true s = true) by congruence.
    clear H. unfold slack_id_pattern in E. cbn [Re.exec andb] in E.
    destruct s as [|c [|ch s]]; try discriminate.
    + now rewrite andb_false_r in E.
    + apply andb_true_iff in E as [U E]. apply andb_true_iff in E as [C E].
      apply literal_U_matches in U. rewrite id_class_matches in C.
      apply repeat_to_end_spec in E as (body & nl & -> & B & N).
      exists c, (ch :: body), nl. cbn [forallb app]. rewrite C, B.
      repeat split; [exact U | discriminate | exact N].
  - intros (c & body & nl & -> & U & Hb & B & N). f_equal.
    unfold slack_id_pattern. cbn [Re.exec andb].
    destruct body as [|ch body]; [congruence|].
    cbn [app forallb] in *. apply andb_true_iff in B as [C B].
    apply andb_true_iff. split; [now apply literal_U_matches|].
    apply andb_true_iff. split; [now rewrite id_class_matches|].
    apply repeat_to_end_spec. now exists body, nl.
Qed.

(** ** The two calls of an accepted entry *)

Section Calls.

Variable token : pystr.
Variable loads : pystr -> option pyval.
Variable net : trace -> http_request -> urlopen_outcome.

Local Abbreviation open_call sid :=
  (slack_request token (py "conversations.open") (open_payload sid)).
Local Abbreviation send_call channel text room :=
  (slack_request token (py "chat.postMessage") (send_payload channel text room)).

(** X7: an entry that passed the local checks, whose conversation opened
    (truthy [ok], a [channel] object with an [id]) and whose message was
    accepted (truthy [ok], a [ts]), gets the result [{slack_id, ok: true,
    channel, ts}]; the turn is the open call, then the post of the
    resolved text to that channel, then one sleep of [delay]. *)
Theorem accepted_entry_is_notified dm rs u sid room custom tr
  o hdrs code c channel s hdrs' code' ts :
  entry_fields u = Ok (sid, PStr room, custom) ->
  slack_id_rejected sid = Ok false ->
  fst (_slack token loads net (py "conversations.open") (open_payload sid) tr)
    = Ok (PDict o, hdrs, code) ->
  truthy (dict_get o (py "ok") PNone) = true ->
  dict_lookup (py "channel") o = Some (PDict c) ->
  dict_lookup (py "id") c = Some channel ->
  fst (_slack token loads net (py "chat.postMessage")
         (send_payload channel (message_text (effective_message custom dm)) room)
         (tr ++ [Urlopen (open_call sid)]))
    = Ok (PDict s, hdrs', code') ->
  truthy (dict_get s (py "ok") PNone) = true ->
  dict_lookup (py "ts") s = Some ts ->
  loop_body token loads net dm rs u tr
  = (Ok (rs ++ [sent_result sid channel ts]),
     tr ++ [Urlopen (open_call sid);
            Urlopen (send_call channel (message_text (effective_message custom dm)) room);
            Sleep delay]).
Proof.
  intros F R S K C I S2 K2 T.
  rewrite (body_accepted token loads net dm rs u sid room custom tr F R).
  rewrite (open_dm_opened token loads net rs sid _ room tr o hdrs code c channel S K C I).
  rewrite (send_message_sent token loads net rs sid channel _ room _ s hdrs' code' ts S2 K2 T).
  now rewrite <- app_assoc.
Qed.

(** X8: when the conversation opened and the post is not accepted (the
    reply's [ok] is missing or falsy), the entry gets [{slack_id, ok:
    false, step: "send", error, retry_after}] with the reply's error code
    or ["send_failed"] and the reply's Retry-After header or [None]; the
    pacing sleep still follows the two calls. *)
Theorem send_failure_recorded dm rs u sid room custom tr
  o hdrs code c channel s hdrs' code' :
  entry_fields u = Ok (sid, PStr room, custom) ->
  slack_id_rejected sid = Ok false ->
  fst (_slack token loads net (py "conversations.open") (open_payload sid) tr)
    = Ok (PDict o, hdrs, code) ->
  truthy (dict_get o (py "ok") PNone) = true ->
  dict_lookup (py "channel") o = Some (PDict c) ->
  dict_lookup (py "id") c = Some channel ->
  fst (_slack token loads net (py "chat.postMessage")
         (send_payload channel (message_text (effective_message custom dm)) room)
         (tr ++ [Urlopen (open_call sid)]))
    = Ok (PDict s, hdrs', code') ->
  truthy (dict_get s (py "ok") PNone) = false ->
  loop_body token loads net dm rs u tr
  = (Ok (rs ++ [failed_result sid "send"
                  (dict_get s (py "error") (PStr (py "send_failed")))
                  (headers_get hdrs' (py "Retry-After"))]),
     tr ++ [Urlopen (open_call sid);
            Urlopen (send_call channel (message_text (effective_message custom dm)) room);
            Sleep delay]).
Proof.
  intros F R S K C I S2 K2.
  rewrite (body_accepted token loads net dm rs u sid room custom tr F R).
  rewrite (open_dm_opened token loads net rs sid _ room tr o hdrs code c channel S K C I).
  rewrite (send_message_refused token loads net rs sid channel _ room _ s hdrs' code' S2 K2).
  now rewrite <- app_assoc.
Qed.


End Calls.

Lemma accepted_entry_is_notified_witness :
  loop_body Demo.token Demo.loads Demo.healthy (PStr (py "You are late")) []
    (Demo.entry "u123abc" "https://x") []
  = (Ok ([] ++ [sent_result (PStr (py "u123abc")) (PStr (py "D024BE91L"))
                  (PStr (py "1503435956.000247"))]),
     [] ++ [Urlopen (slack_request Demo.token (py "conversations.open")
                       (open_payload (PStr (py "u123abc"))));
            Urlopen (slack_request Demo.token (py "chat.postMessage")
                       (send_payload (PStr (py "D024BE91L"))
                          (message_text (effective_message PNone (PStr (py "You are late"))))
                          (py "https://x")));
            Sleep delay]).
Proof.
  apply (accepted_entry_is_notified Demo.token Demo.loads Demo.healthy
           (PStr (py "You are late")) [] (Demo.entry "u123abc" "https://x")
           (PStr (py "u123abc")) (py "https://x") PNone []
           [(py "ok", PBool true);
            (py "channel", PDict [(py "id", PStr (py "D024BE91L"))])]
           [] 200%Z [(py "id", PStr (py "D024BE91L"))] (PStr (py "D024BE91L"))
           [(py "ok", PBool true); (py "ts", PStr (py "1503435956.000247"))]
           [] 200%Z (PStr (py "1503435956.000247")));
    reflexivity.
Defined.

Lemma send_failure_recorded_witness :
  loop_body Demo.token Demo.loads
    (Demo.network (Demo.replies "opened") (Demo.replies "user_not_found"))
    PNone [] (Demo.entry "U123ABC" "https://x") []
  = (Ok ([] ++ [failed_result (PStr (py "U123ABC")) "send"
                  (dict_get [(py "ok", PBool false);
                             (py "error", PStr (py "user_not_found"))]
                     (py "error") (PStr (py "send_failed")))
                  (headers_get [] (py "Retry-After"))]),
     [] ++ [Urlopen (slack_request Demo.token (py "conversations.open")
                       (open_payload (PStr (py "U123ABC"))));
            Urlopen (slack_request Demo.token (py "chat.postMessage")
                       (send_payload (PStr (py "D024BE91L"))
                          (message_text (effective_message PNone PNone)) (py "https://x")));
            Sleep delay]).
Proof.
  apply (send_failure_recorded Demo.token Demo.loads
           (Demo.network (Demo.replies "opened") (Demo.replies "user_not_found"))
           PNone [] (Demo.entry "U123ABC" "https://x")
           (PStr (py "U123ABC")) (py "https://x") PNone []
           [(py "ok", PBool true);
            (py "channel", PDict [(py "id", PStr (py "D024BE91L"))])]
           [] 200%Z [(py "id", PStr (py "D024BE91L"))] (PStr (py "D024BE91L"))
           [(py "ok", PBool false); (py "error", PStr (py "user_not_found"))]
           [] 200%Z);
    reflexivity.
Defined.


Example rate_limit_is_surfaced :
  fst (loop_body Demo.token Demo.loads_more
         (Demo.network (HTTPError (Some (py "ratelimited")) Demo.retry_in_30 429)
                       (Demo.replies "posted"))
         PNone [] (Demo.entry "U123ABC" "https://x") [])
  = Ok [failed_result (PStr (py "U123ABC")) "open" (PStr (py "ratelimited"))
          (PStr (py "30"))].
Proof. vm_compute. reflexivity. Qed.

(** ** What a batch leaves behind *)

Section Events.

Variable token bearer : pystr.
Variable loads : pystr -> option pyval.
Variable net : trace -> http_request -> urlopen_outcome.

Local Abbreviation vetted := (Forall (vetted_event token)).

Lemma message_text_truthy cm : truthy (message_text cm) = true.
Proof.
  unfold message_text, py_or. destruct (truthy cm) eqn:T; [exact T | reflexivity].
Qed.

Lemma vetted_post channel cm room :
  vetted_event token
    (Urlopen (slack_request token (py "chat.postMessage")
                (send_payload channel (message_text cm) room))).
Proof. right. exists channel, (message_text cm), room. split; [apply message_text_truthy | reflexivity]. Qed.

Lemma vetted_open s :
  Re.exec true slack_id_pattern true s = true ->
  vetted_event token
    (Urlopen (slack_request token (py "conversations.open") (open_payload (PStr s)))).
Proof. intros E. left. now exists s. Qed.

(** The turn of [send_message], whether it returns or raises: the post,
    and the sleep when a result was recorded. *)
Lemma send_message_events rs sid channel cm room tr :
  exists r added,
    send_message token loads net rs sid channel cm room tr = (r, tr ++ added)
    /\ ((exists rs', r = Ok rs')
          /\ added = [Urlopen (slack_request token (py "chat.postMessage")
                                 (send_payload channel (message_text cm) room));
                      Sleep delay]
        \/ (exists e, r = Raise e)
          /\ added = [Urlopen (slack_request token (py "chat.postMessage")
                                 (send_payload channel (message_text cm) room))]).
Proof.
  unfold send_message.
  destruct (slack_returns token loads net (py "chat.postMessage")
              (send_payload channel (message_text cm) room) tr) as (j & h & c & E).
  rewrite (bind_ok _ _ _ _ _ E).
  destruct j as [| b | n | x | s | l | d];
    try (do 2 eexists; split; [reflexivity | right; split; [now eexists | reflexivity]]).
  cbn [get]. rewrite bind_lift_ok.
  destruct (truthy (dict_get d (py "ok") PNone)); cbn [negb].
  - unfold bind, lift, getitem.
    destruct (dict_lookup (py "ts") d) as [ts|].
    + do 2 eexists. split; [cbn; now rewrite <- app_assoc|].
      left. split; [now eexists | reflexivity].
    + do 2 eexists. split; [reflexivity|]. right. split; [now eexists | reflexivity].
  - do 2 eexists. split; [cbn; now rewrite <- app_assoc|].
    left. split; [now eexists | reflexivity].
Qed.

Lemma open_dm_events rs sid cm room tr :
  exists r added,
    open_dm token loads net rs sid cm room tr = (r, tr ++ added)
    /\ ((exists rs', r = Ok rs')
          /\ (added = [Urlopen (slack_request token (py "conversations.open")
                                  (open_payload sid));
                       Sleep delay]
              \/ exists channel,
                   added = [Urlopen (slack_request token (py "conversations.open")
                                       (open_payload sid));
                            Urlopen (slack_request token (py "chat.postMessage")
                                       (send_payload channel (message_text cm) room));
                            Sleep delay])
        \/ (exists e, r = Raise e)
          /\ (added = [Urlopen (slack_request token (py "conversations.open")
                                  (open_payload sid))]
              \/ exists channel,
                   added = [Urlopen (slack_request token (py "conversations.open")
                                       (open_payload sid));
                            Urlopen (slack_request token (py "chat.postMessage")
                                       (send_payload channel (message_text cm) room))])).
Proof.
  unfold open_dm.
  destruct (slack_returns token loads net (py "conversations.open")
              (open_payload sid) tr) as (j & h & c & E).
  rewrite (bind_ok _ _ _ _ _ E).
  assert (Stop : forall e (k : M (list pyval)),
             exists r added,
               (Raise e : result (list pyval),
                tr ++ [Urlopen (slack_request token (py "conversations.open")
                                  (open_payload sid))])
               = (r, tr ++ added)
               /\ ((exists rs', r = Ok rs')
                     /\ (added = [Urlopen (slack_request token (py "conversations.open")
                                             (open_payload sid));
                                  Sleep delay]
                         \/ exists channel,
                              added = [Urlopen (slack_request token (py "conversations.open")
                                                  (open_payload sid));
                                       Urlopen (slack_request token (py "chat.postMessage")
                                                  (send_payload channel (message_text cm) room));
                                       Sleep delay])
                   \/ (exists e, r = Raise e)
                     /\ (added = [Urlopen (slack_request token (py "conversations.open")
                                             (open_payload sid))]
                         \/ exists channel,
                              added = [Urlopen (slack_request token (py "conversations.open")
                                                  (open_payload sid));
                                       Urlopen (slack_request token (py "chat.postMessage")
                                                  (send_payload channel (message_text cm) room))]))).
  { intros e _. do 2 eexists. split; [reflexivity|].
    right. split; [now eexists | now left]. }
  destruct j as [| b | n | x | s | l | d];
    try (apply (Stop AttributeError (ret rs))).
  cbn [get]. rewrite bind_lift_ok.
  destruct (truthy (dict_get d (py "ok") PNone)); cbn [negb].
  - unfold getitem at 1.
    destruct (dict_lookup (py "channel") d) as [chan|];
      [| apply (Stop _ (ret rs))].
    rewrite bind_lift_ok.
    destruct (getitem chan (py "id")) as [channel|e];
      [| apply (Stop _ (ret rs))].
    rewrite bind_lift_ok.
    destruct (send_message_events rs sid channel cm room
                (tr ++ [Urlopen (slack_request token (py "conversations.open")
                                   (open_payload sid))]))
      as (r & added & S & [(Hr & ->) | (Hr & ->)]); rewrite S, <- app_assoc;
      do 2 eexists; (split; [reflexivity|]).
    + left. split; [exact Hr|]. right. now exists channel.
    + right. split; [exact Hr|]. right. now exists channel.
  - do 2 eexists. split; [cbn; now rewrite <- app_assoc|].
    left. split; [now eexists | now left].
Qed.

Lemma accepted_spec u :
  accepted u = true ->
  exists s room custom,
    entry_fields u = Ok (PStr s, PStr room, custom)
    /\ slack_id_rejected (PStr s) = Ok false
    /\ Re.exec true slack_id_pattern true s = true.
Proof.
  unfold accepted.
  destruct (entry_fields u) as [[[sid room] custom]|e]; [|discriminate].
  destruct room as [| | | | room | |]; try discriminate.
  destruct (slack_id_rejected sid) as [[|]|e] eqn:R; try discriminate.
  intros _. unfold slack_id_rejected in R.
  destruct (truthy sid); [|discriminate].
  destruct sid as [| | | | s | |]; try discriminate.
  cbn [Re.re_match] in R.
  assert (X : Re.exec true slack_id_pattern true s = true)
    by (destruct (Re.exec true slack_id_pattern true s); [reflexivity | discriminate]).
  exists s, room, custom. repeat split; [|exact X].
  destruct s as [|c s]; [discriminate X|].
  unfold slack_id_rejected. cbn [truthy negb Re.re_match]. now rewrite X.
Qed.

Lemma not_accepted_turn dm rs u tr :
  accepted u = false ->
  snd (loop_body token loads net dm rs u tr) = tr.
Proof.
  unfold accepted, loop_body.
  destruct (entry_fields u) as [[[sid room] custom]|e]; [|reflexivity].
  rewrite bind_lift_ok.
  destruct (slack_id_rejected sid) as [[|]|e]; try reflexivity.
  destruct room; try reflexivity. discriminate.
Qed.

(** The events of one turn, by the fate of the entry. *)
Lemma body_events dm rs u tr :
  exists added,
    snd (loop_body token loads net dm rs u tr) = tr ++ added
    /\ vetted added
    /\ (accepted u = false -> added = [])
    /\ (forall rs', fst (loop_body token loads net dm rs u tr) = Ok rs' ->
        count is_sleep added = (if accepted u then 1 else 0)%nat
        /\ ((if accepted u then 1 else 0) <= count is_call added
            <= (if accepted u then 2 else 0))%nat).
Proof.
  destruct (accepted u) eqn:A.
  - destruct (accepted_spec u A) as (s & room & custom & F & R & X).
    rewrite (body_accepted token loads net dm rs u (PStr s) room custom tr F R).
    destruct (open_dm_events rs (PStr s) (effective_message custom dm) room tr)
      as (r & added & E & [((rs' & ->) & [-> | (ch & ->)])
                          | ((e & ->) & [-> | (ch & ->)])]);
      rewrite E; cbn [fst snd];
      eexists; (split; [reflexivity|]); (split; [|split]).
    all: try discriminate.
    all: try (intros ? _; cbn; lia).
    all: repeat (apply Forall_cons;
                 [first [now apply vetted_open | apply vetted_post | reflexivity]|]);
      apply Forall_nil.
  - exists []. rewrite app_nil_r. repeat split.
    + now apply not_accepted_turn.
    + constructor.
    + cbn. lia.
    + cbn. lia.
Qed.

Lemma count_app p a b : count p (a ++ b) = (count p a + count p b)%nat.
Proof. unfold count. now rewrite filter_app, length_app. Qed.

Lemma loop_events dm users rs tr :
  exists added,
    snd (for_each token loads net dm users rs tr) = tr ++ added
    /\ vetted added
    /\ (forallb (fun u => negb (accepted u)) users = true -> added = [])
    /\ (forall rs', fst (for_each token loads net dm users rs tr) = Ok rs' ->
        count is_sleep added = List.length (filter accepted users)
        /\ (List.length (filter accepted users) <= count is_call added
            <= 2 * List.length (filter accepted users))%nat).
Proof.
  revert rs tr. induction users as [|u users IH]; intros rs tr; cbn [for_each].
  - exists []. rewrite app_nil_r. repeat split; try constructor; cbn; lia.
  - destruct (body_events dm rs u tr) as (a1 & T1 & V1 & N1 & C1).
    unfold bind.
    destruct (loop_body token loads net dm rs u tr) as [[rs1|e] tr1] eqn:B;
      cbn [fst snd] in *; subst tr1.
    + destruct (IH rs1 (tr ++ a1)) as (a2 & T2 & V2 & N2 & C2).
      exists (a1 ++ a2). rewrite T2, app_assoc. split; [reflexivity|].
      split; [now apply Forall_app|]. split.
      * cbn [forallb]. intros H. apply andb_true_iff in H as [H1 H2].
        apply negb_true_iff in H1. now rewrite (N1 H1), (N2 H2).
      * intros rs' H. destruct (C1 rs1 eq_refl) as (S1 & L1).
        destruct (C2 rs' H) as (S2 & L2).
        rewrite !count_app, S1, S2. cbn [filter].
        destruct (accepted u); cbn [List.length]; lia.
    + exists a1. split; [reflexivity|]. split; [exact V1|]. split.
      * cbn [forallb]. intros H. apply andb_true_iff in H as [H1 _].
        apply negb_true_iff in H1. now apply N1.
      * discriminate.
Qed.

(** X10: whatever the request and whether the handler returns or raises,
    it only adds events to the trace, and every event it adds is a sleep
    of [delay], an open call for a string that the id pattern matches, or
    a post whose text is truthy; every call is a POST to the Slack API
    that carries the bot token. *)
Theorem only_vetted_events request tr :
  exists added,
    snd (handler token bearer loads net request tr) = tr ++ added
    /\ Forall (vetted_event token) added
    /\ Forall (fun e => forall req, e = Urlopen req ->
                 method req = py "POST"
                 /\ header_lookup (py "Authorization") (req_headers req)
                    = Some (py "Bearer " ++ token)
                 /\ exists path, url req = py "https://slack.com/api/" ++ path)
              added.
Proof.
  assert (H : exists added,
             snd (handler token bearer loads net request tr) = tr ++ added
             /\ vetted added).
  { unfold handler.
    destruct (negb (pystr_eqb (request_method request) (py "POST")));
      [exists []; rewrite app_nil_r; split; [reflexivity | constructor]|].
    destruct (truthy (PStr bearer) && _);
      [exists []; rewrite app_nil_r; split; [reflexivity | constructor]|].
    destruct (get_json request) as [body|];
      [|exists []; rewrite app_nil_r; split; [reflexivity | constructor]].
    destruct (get body (py "users") PNone) as [users|e];
      [|exists []; rewrite app_nil_r; split; [reflexivity | constructor]].
    rewrite bind_lift_ok.
    destruct users as [| | | | | entries |];
      try (exists []; rewrite app_nil_r; split; [reflexivity | constructor]).
    destruct (negb (truthy (PList entries)));
      [exists []; rewrite app_nil_r; split; [reflexivity | constructor]|].
    destruct (get body (py "default_message") PNone) as [dm|e];
      [|exists []; rewrite app_nil_r; split; [reflexivity | constructor]].
    rewrite bind_lift_ok.
    destruct (loop_events dm entries [] tr) as (added & T & V & _).
    exists added. split; [|exact V].
    unfold bind.
    destruct (for_each token loads net dm entries [] tr) as [[rs|e] tr1];
      cbn [snd] in *; exact T. }
  destruct H as (added & T & V). exists added. split; [exact T|]. split; [exact V|].
  eapply Forall_impl; [|exact V].
  intros e He req ->. cbn in He.
  destruct He as [(s & _ & ->) | (channel & text & room & _ & ->)];
    (repeat split; [now eexists]).
Qed.

(** X11: in a batch the handler answers, the pacing sleep runs once for
    every entry that passed the local checks and never for the others,
    and the number of upstream calls is at least that number of entries
    and at most twice it. *)
Theorem one_sleep_per_accepted_entry request fields users tr response tr' :
  passes_validation bearer request fields users ->
  handler token bearer loads net request tr = (Ok response, tr') ->
  exists added,
    tr' = tr ++ added
    /\ count is_sleep added = List.length (filter accepted users)
    /\ (List.length (filter accepted users) <= count is_call added
        <= 2 * List.length (filter accepted users))%nat.
Proof.
  intros V.
  rewrite (handler_validated token bearer loads net request fields users tr V).
  destruct (loop_events (default_message_of fields) users [] tr) as (added & T & _ & _ & C).
  unfold bind.
  destruct (for_each token loads net (default_message_of fields) users [] tr)
    as [[rs|e] tr1]; [|discriminate].
  cbn [fst snd] in *. intros H. inversion H. subst.
  exists added. split; [reflexivity|]. exact (C rs eq_refl).
Qed.

(** X12: a batch in which no entry passes the local checks costs nothing:
    whether the handler answers or raises, it has made no upstream call
    and has not slept. *)
Theorem rejected_batch_is_free request fields users tr :
  passes_validation bearer request fields users ->
  forallb (fun u => negb (accepted u)) users = true ->
  snd (handler token bearer loads net request tr) = tr.
Proof.
  intros V N.
  rewrite (handler_validated token bearer loads net request fields users tr V).
  destruct (loop_events (default_message_of fields) users [] tr) as (added & T & _ & E & _).
  rewrite (E N), app_nil_r in T.
  unfold bind.
  destruct (for_each token loads net (default_message_of fields) users [] tr)
    as [[rs|e] tr1]; cbn [snd] in *; exact T.
Qed.

(** X13: an exception in the turn of one entry ends the batch there: the
    handler raises it, the entries after it are never looked at, and the
    calls already made for the entries before it stay made. *)
Theorem raise_ends_the_batch request fields before u after tr0 rs tr e tr' :
  passes_validation bearer request fields (before ++ u :: after) ->
  for_each token loads net (default_message_of fields) before [] tr0 = (Ok rs, tr) ->
  loop_body token loads net (default_message_of fields) rs u tr = (Raise e, tr') ->
  handler token bearer loads net request tr0 = (Raise e, tr').
Proof.
  intros V L B.
  rewrite (handler_validated token bearer loads net request fields _ tr0 V).
  unfold bind at 1. rewrite loop_app, (bind_ok _ _ _ _ _ L).
  cbn [for_each]. now rewrite (bind_raise _ _ _ _ _ B).
Qed.

(** X14: every answer of the handler is one of five: the error of one of
    the four checks, with the trace untouched, or 200 with [{"ok": true,
    "results": [...]}]; its only header is the JSON content type. *)
Theorem answers_are_known request tr response tr' :
  handler token bearer loads net request tr = (Ok response, tr') ->
  known_answer response
  /\ response_headers response = [(py "content-type", py "application/json")]
  /\ (status response = 200%Z \/ tr' = tr).
Proof.
  unfold handler, known_answer.
  destruct (negb (pystr_eqb (request_method request) (py "POST")));
    [intros H; inversion H; subst; cbn; solve [auto 10]|].
  destruct (truthy (PStr bearer) && _);
    [intros H; inversion H; subst; cbn; solve [auto 10]|].
  destruct (get_json request) as [body|];
    [|intros H; inversion H; subst; cbn; solve [auto 10]].
  destruct (get body (py "users") PNone) as [users|e]; [|discriminate].
  rewrite bind_lift_ok.
  destruct users as [| | | | | entries |];
    try (intros H; inversion H; subst; cbn; solve [auto 10]).
  destruct (negb (truthy (PList entries)));
    [intros H; inversion H; subst; cbn; solve [auto 10]|].
  destruct (get body (py "default_message") PNone) as [dm|e]; [|discriminate].
  rewrite bind_lift_ok. unfold bind.
  destruct (for_each token loads net dm entries [] tr) as [[rs|e] tr1]; [|discriminate].
  intros H. inversion H. subst. cbn. split; [|auto].
  do 4 right. now exists rs.
Qed.

End Events.

Lemma one_sleep_per_accepted_entry_witness :
  exists added,
    [Urlopen (slack_request Demo.token (py "conversations.open")
                (open_payload (PStr (py "U123ABC"))));
     Urlopen (slack_request Demo.token (py "chat.postMessage")
                (send_payload (PStr (py "D024BE91L")) (PStr FALLBACK) (py "https://x")));
     Sleep delay]
    = [] ++ added
    /\ count is_sleep added
       = List.length (filter accepted [PNone; Demo.entry "x123" "https://x";
                                       Demo.entry "U123ABC" "https://x"])
    /\ (List.length (filter accepted [PNone; Demo.entry "x123" "https://x";
                                      Demo.entry "U123ABC" "https://x"])
        <= count is_call added
        <= 2 * List.length (filter accepted [PNone; Demo.entry "x123" "https://x";
                                             Demo.entry "U123ABC" "https://x"]))%nat.
Proof.
  apply (one_sleep_per_accepted_entry Demo.token [] Demo.loads Demo.healthy
           (Demo.post (Demo.batch [PNone; Demo.entry "x123" "https://x";
                                   Demo.entry "U123ABC" "https://x"]))
           [(py "users", PList [PNone; Demo.entry "x123" "https://x";
                                Demo.entry "U123ABC" "https://x"])]
           [PNone; Demo.entry "x123" "https://x"; Demo.entry "U123ABC" "https://x"] []
           (json_response 200
              (ok_body [invalid_result PNone; invalid_result (PStr (py "x123"));
                        sent_result (PStr (py "U123ABC")) (PStr (py "D024BE91L"))
                          (PStr (py "1503435956.000247"))]))).
  - repeat split; try reflexivity.
    + now left.
    + discriminate.
  - vm_compute. reflexivity.
Defined.

Lemma rejected_batch_is_free_witness :
  snd (handler Demo.token [] Demo.loads Demo.healthy
         (Demo.post (Demo.batch [PNone; Demo.entry "x123" "https://x";
                                 PDict [(py "slack_id", PStr (py "U123ABC"))]])) [])
  = [].
Proof.
  apply (rejected_batch_is_free Demo.token [] Demo.loads Demo.healthy
           (Demo.post (Demo.batch [PNone; Demo.entry "x123" "https://x";
                                   PDict [(py "slack_id", PStr (py "U123ABC"))]]))
           [(py "users", PList [PNone; Demo.entry "x123" "https://x";
                                PDict [(py "slack_id", PStr (py "U123ABC"))]])]
           [PNone; Demo.entry "x123" "https://x";
            PDict [(py "slack_id", PStr (py "U123ABC"))]] []).
  - repeat split; try reflexivity.
    + now left.
    + discriminate.
  - reflexivity.
Defined.

(** The first user is notified, the second entry raises, the third is
    never looked at. *)
Lemma raise_ends_the_batch_witness :
  handler Demo.token [] Demo.loads Demo.healthy
    (Demo.post (Demo.batch ([Demo.entry "U123ABC" "https://x"]
                              ++ PStr (py "U456DEF")
                              :: [Demo.entry "U789GHI" "https://x"]))) []
  = (Raise AttributeError,
     [Urlopen (slack_request Demo.token (py "conversations.open")
                 (open_payload (PStr (py "U123ABC"))));
      Urlopen (slack_request Demo.token (py "chat.postMessage")
                 (send_payload (PStr (py "D024BE91L")) (PStr FALLBACK) (py "https://x")));
      Sleep delay]).
Proof.
  apply (raise_ends_the_batch Demo.token [] Demo.loads Demo.healthy
           (Demo.post (Demo.batch ([Demo.entry "U123ABC" "https://x"]
                                     ++ PStr (py "U456DEF")
                                     :: [Demo.entry "U789GHI" "https://x"])))
           [(py "users", PList ([Demo.entry "U123ABC" "https://x"]
                                  ++ PStr (py "U456DEF")
                                  :: [Demo.entry "U789GHI" "https://x"]))]
           [Demo.entry "U123ABC" "https://x"] (PStr (py "U456DEF"))
           [Demo.entry "U789GHI" "https://x"] []
           [sent_result (PStr (py "U123ABC")) (PStr (py "D024BE91L"))
              (PStr (py "1503435956.000247"))]
           [Urlopen (slack_request Demo.token (py "conversations.open")
                       (open_payload (PStr (py "U123ABC"))));
            Urlopen (slack_request Demo.token (py "chat.postMessage")
                       (send_payload (PStr (py "D024BE91L")) (PStr FALLBACK) (py "https://x")));
            Sleep delay]).
  - repeat split; try reflexivity.
    + now left.
    + discriminate.
  - vm_compute. reflexivity.
  - vm_compute. reflexivity.
Defined.

Lemma answers_are_known_witness :
  known_answer (json_response 422 (error_body "users_array_required"))
  /\ response_headers (json_response 422 (error_body "users_array_required"))
     = [(py "content-type", py "application/json")]
  /\ (status (json_response 422 (error_body "users_array_required")) = 200%Z
      \/ @nil event = []).
Proof.
  apply (answers_are_known Demo.token [] Demo.loads Demo.healthy
           (Demo.post (Demo.batch [])) []).
  reflexivity.
Defined.

(** ** The configuration *)

(** X15: with the bot token set and the shared secret unset or empty,
    requests are served with authentication off: whatever its
    Authorization header, a request is answered as if no secret existed,
    and no answer is 401. *)
Theorem unset_secret_disables_auth env loads net token request tr :
  header_lookup (py "SLACK_BOT_TOKEN") env = Some token ->
  header_lookup (py "API_BEARER_TOKEN") env = None
  \/ header_lookup (py "API_BEARER_TOKEN") env = Some [] ->
  serve env loads net request tr = handler token [] loads net request tr
  /\ (forall header_value response tr',
        serve env loads net
          {| request_method := request_method request;
             request_headers_get := fun _ => header_value;
             get_json := get_json request |} tr = (Ok response, tr') ->
        serve env loads net request tr = (Ok response, tr')
        /\ status response <> 401%Z).
Proof.
  intros T S.
  assert (E : forall r t, serve env loads net r t = handler token [] loads net r t).
  { intros r t. unfold serve, import_module. rewrite T.
    destruct S as [-> | ->]; reflexivity. }
  split; [apply E|].
  intros hv response tr'. rewrite !E. unfold handler. cbn [request_method get_json].
  change (truthy (PStr []) && _) with false at 1.
  change (truthy (PStr []) && _) with false.
  destruct (negb (pystr_eqb (request_method request) (py "POST")));
    [intros H; inversion H; subst; split; [reflexivity | discriminate]|].
  cbn iota.
  destruct (get_json request) as [body|];
    [|intros H; inversion H; subst; split; [reflexivity | discriminate]].
  destruct (get body (py "users") PNone) as [users|e]; [|discriminate].
  rewrite bind_lift_ok.
  destruct users as [| | | | | entries |];
    try (intros H; inversion H; subst; split; [reflexivity | discriminate]).
  destruct (negb (truthy (PList entries)));
    [intros H; inversion H; subst; split; [reflexivity | discriminate]|].
  destruct (get body (py "default_message") PNone) as [dm|e]; [|discriminate].
  rewrite bind_lift_ok. unfold bind.
  destruct (for_each token loads net dm entries [] tr) as [[rs|e] tr1]; [|discriminate].
  intros H. inversion H. subst. split; [reflexivity | discriminate].
Qed.

Lemma unset_secret_disables_auth_witness :
  serve Demo.environment Demo.loads Demo.healthy (Demo.post (Demo.batch [])) []
  = handler Demo.token [] Demo.loads Demo.healthy (Demo.post (Demo.batch [])) []
  /\ (forall header_value response tr',
        serve Demo.environment Demo.loads Demo.healthy
          {| request_method := request_method (Demo.post (Demo.batch []));
             request_headers_get := fun _ => header_value;
             get_json := get_json (Demo.post (Demo.batch [])) |} [] = (Ok response, tr') ->
        serve Demo.environment Demo.loads Demo.healthy (Demo.post (Demo.batch [])) []
        = (Ok response, tr')
        /\ status response <> 401%Z).
Proof.
  apply (unset_secret_disables_auth Demo.environment Demo.loads Demo.healthy Demo.token
           (Demo.post (Demo.batch [])) [] eq_refl).
  now left.
Defined.
